(** * Imagery: a shallow embedding of [imagery/__init__.py]

    The module wraps a GDAL dataset and its bands.  Its own logic is the affine
    arithmetic of [RasterProxy], the no-data masking of [Band.get_array], the
    constructor of [Dataset] with its [try]/[except] block, and the resource
    handling of [Dataset.close] and of the context manager [open].

    Conventions of the embedding:
    - a Python call that can raise returns a [result];
    - code that assigns attributes of [self] runs in [exec], a state and
      exception monad over the attribute dictionary of the object;
    - a Python float is a binary64 number: a rational that the format
      represents, an infinity or NaN.  An operation is the exact operation
      followed by the rounding of the format (to nearest, ties to even, with
      overflow to infinity and gradual underflow).  The two zeros are one
      value: they are equal for [==], a division by either raises, and no
      operation of the module tells one from the other;
    - the libraries the module calls (GDAL, OSR, fiona, shapely, numpy and the
      sibling modules [strategies] and [area]) are not part of the file; their
      objects are records of what their methods answer. *)

From Stdlib Require Import ZArith QArith Qcanon Field Lia Floats.
From stdpp Require Import base option list strings gmap.

Local Open Scope Qc_scope.

(** ** Exceptions and results *)

Inductive exn :=
| AttributeError
| NameError
| TypeError
| ValueError
| ZeroDivisionError
| OverflowError
| RuntimeError
| StructError
| OtherError (name : string).

Inductive result (A : Type) :=
| Ok (a : A)
| Raise (e : exn).
Arguments Ok {A} a.
Arguments Raise {A} e.

#[global] Instance result_ret : MRet result := fun A a => Ok a.
#[global] Instance result_bind : MBind result := fun A B f m =>
  match m with
  | Ok a => f a
  | Raise e => Raise e
  end.
#[global] Instance result_fmap : FMap result := fun A B f m =>
  match m with
  | Ok a => Ok (f a)
  | Raise e => Raise e
  end.

Definition is_AttributeError (e : exn) : bool :=
  match e with AttributeError => true | _ => false end.

Definition is_ValueError (e : exn) : bool :=
  match e with ValueError => true | _ => false end.

(** ** Numbers *)

Definition Z2Qc (z : Z) : Qc := Q2Qc (inject_Z z).

(** A float: a finite number, an infinity or NaN. *)
Inductive pyfloat :=
| FNum (q : Qc)
| FInf (negative : bool)
| FNaN.

(** [floor(log2(n/d))]: the difference of the two integer logarithms, or one
    less. *)
Definition flog2 (n d : positive) : Z :=
  let t := (Z.log2 (Zpos n) - Z.log2 (Zpos d))%Z in
  if (if (0 <=? t)%Z then (Zpos d * 2 ^ t <=? Zpos n)%Z
      else (Zpos d <=? Zpos n * 2 ^ (- t))%Z)
  then t else (t - 1)%Z.

(** [p/q] rounded to the nearest integer, a tie to the even one
    ([0 <= p], [0 < q]). *)
Definition rne (p q : Z) : Z :=
  let fl := (p / q)%Z in
  match (2 * (p mod q) ?= q)%Z with
  | Lt => fl
  | Gt => (fl + 1)%Z
  | Eq => if Z.even fl then fl else (fl + 1)%Z
  end.

(** The positive rational [n/d] rounded to a binary format with [prec] bits
    of precision, whose smallest positive number is [2^emin] and whose
    numbers are below [2^emax]: the nearest multiple of the unit in the last
    place, or [None] when that is [2^emax] or more. *)
Definition round_pos (prec emin emax : Z) (n d : positive) : option Qc :=
  let e := flog2 n d in
  let ulp := Z.max (e - (prec - 1)) emin in
  if (0 <=? ulp)%Z then
    let r := (rne (Zpos n) (Zpos d * 2 ^ ulp) * 2 ^ ulp)%Z in
    if (2 ^ emax <=? r)%Z then None else Some (Z2Qc r)
  else
    Some (Q2Qc (Qmake (rne (Zpos n * 2 ^ (- ulp)) (Zpos d))
                  (Z.to_pos (2 ^ (- ulp))))).

Definition round_float (prec emin emax : Z) (q : Qc) : pyfloat :=
  match Qnum q with
  | Z0 => FNum 0
  | Zpos n =>
      match round_pos prec emin emax n (Qden q) with
      | Some r => FNum r
      | None => FInf false
      end
  | Zneg n =>
      match round_pos prec emin emax n (Qden q) with
      | Some r => FNum (- r)
      | None => FInf true
      end
  end.

(** The rounding of binary64 (a Python float, [float64]) and of binary32
    ([float32]). *)
Definition round64 : Qc → pyfloat := round_float 53 (-1074) 1024.
Definition round32 : Qc → pyfloat := round_float 24 (-149) 128.

(** [q] is a number of binary64. *)
Definition exact64 (q : Qc) : Prop := round64 q = FNum q.

(** [a] is a float: its number, if it is one, is a number of binary64. *)
Definition is_float64 (a : pyfloat) : Prop :=
  match a with
  | FNum q => exact64 q
  | _ => True
  end.

(** The float of a Python integer. *)
Definition float_of_int (z : Z) : pyfloat := round64 (Z2Qc z).

Definition Qc_negative (q : Qc) : bool := bool_decide (q < 0).

(** [-a], [a + b], [a - b], [a * b] and, for [b] that is not zero, [a / b]. *)
Definition float_opp (a : pyfloat) : pyfloat :=
  match a with
  | FNum q => FNum (- q)
  | FInf s => FInf (negb s)
  | FNaN => FNaN
  end.

Definition float_add (a b : pyfloat) : pyfloat :=
  match a, b with
  | FNaN, _ | _, FNaN => FNaN
  | FInf s, FInf t => if bool_decide (s = t) then FInf s else FNaN
  | FInf s, FNum _ | FNum _, FInf s => FInf s
  | FNum p, FNum q => round64 (p + q)
  end.

Definition float_sub (a b : pyfloat) : pyfloat := float_add a (float_opp b).

Definition float_mul (a b : pyfloat) : pyfloat :=
  match a, b with
  | FNaN, _ | _, FNaN => FNaN
  | FInf s, FInf t => FInf (xorb s t)
  | FInf s, FNum q | FNum q, FInf s =>
      if bool_decide (q = 0) then FNaN else FInf (xorb s (Qc_negative q))
  | FNum p, FNum q => round64 (p * q)
  end.

Definition float_div (a b : pyfloat) : pyfloat :=
  match a, b with
  | FNaN, _ | _, FNaN => FNaN
  | FInf _, FInf _ => FNaN
  | FInf s, FNum q => FInf (xorb s (Qc_negative q))
  | FNum _, FInf _ => FNum 0
  | FNum p, FNum q => round64 (p / q)
  end.

(** [a == b] on floats: NaN is equal to nothing, itself included. *)
Definition float_eqb (a b : pyfloat) : bool :=
  match a, b with
  | FNum p, FNum q => bool_decide (p = q)
  | FInf s, FInf t => bool_decide (s = t)
  | _, _ => false
  end.

Definition float_isnan (a : pyfloat) : bool :=
  match a with FNaN => true | _ => false end.

(** [a / b] under [from __future__ import division]: a float division by
    zero raises, whatever [a] is. *)
Definition py_div (a b : pyfloat) : result pyfloat :=
  if float_eqb b (FNum 0) then Raise ZeroDivisionError else Ok (float_div a b).

(** [int(i)]: truncation towards zero; an infinity and NaN have no integer. *)
Definition py_int (i : pyfloat) : result Z :=
  match i with
  | FNum q => Ok (Z.quot (Qnum q) (Zpos (Qden q)))
  | FInf _ => Raise OverflowError
  | FNaN => Raise ValueError
  end.

(** The binary64 numbers of the machine, read as floats of the model. *)
Definition of_binary64 (x : float) : pyfloat :=
  match Prim2SF x with
  | S754_zero _ => FNum 0
  | S754_infinity s => FInf s
  | S754_nan => FNaN
  | S754_finite s m e =>
      let v := if (0 <=? e)%Z then Z2Qc (Zpos m * 2 ^ e)
               else Q2Qc (Qmake (Zpos m) (Z.to_pos (2 ^ (- e)))) in
      FNum (if s then - v else v)
  end.

(** ** Geometries (shapely) *)

(** A vertex is [(x, y)] or [(x, y, z)]. *)
Definition vertex : Type := pyfloat * pyfloat * option pyfloat.

Inductive geometry :=
| Point (v : vertex)
| LineString (vs : list vertex)
| Polygon (shell : list vertex) (holes : list (list vertex)).

(** What the extraction functions pass around: a geometry, or the n x 3 matrix
    of [extract_area]. *)
Inductive pyobj :=
| Geom (g : geometry)
| Matrix (rows : list (list pyfloat)).

Definition apply_coord (func : pyfloat → pyfloat → option pyfloat → result vertex)
    (v : vertex) : result vertex :=
  let '(x, y, z) := v in func x y z.

(** [shapely.ops.transform]: [func] is applied to every vertex, in order, and
    the geometry is rebuilt from the answers. *)
Definition transform_geometry
    (func : pyfloat → pyfloat → option pyfloat → result vertex)
    (geom : geometry) : result geometry :=
  match geom with
  | Point v => Point <$> apply_coord func v
  | LineString vs => LineString <$> mapM (apply_coord func) vs
  | Polygon shell holes =>
      shell' ← mapM (apply_coord func) shell;
      holes' ← mapM (mapM (apply_coord func)) holes;
      Ok (Polygon shell' holes')
  end.

(** An object that is no geometry has no attribute [is_empty]. *)
Definition transform (func : pyfloat → pyfloat → option pyfloat → result vertex)
    (geom : pyobj) : result pyobj :=
  match geom with
  | Geom g => Geom <$> transform_geometry func g
  | Matrix _ => Raise AttributeError
  end.

(** ** Arrays (numpy) *)

(** The float element types of a raster. *)
Inductive float_dtype := Float32 | Float64.

Inductive ndarray :=
| IntArray (rows : list (list Z))
| FloatArray (dtype : float_dtype) (rows : list (list pyfloat)).

(** The bound of numpy for a float that is converted to [float32]: the
    binary64 nearest to [3.4e38]. *)
Definition float32_bound : Qc :=
  match round64 (Z2Qc (34 * 10 ^ 37)) with
  | FNum b => b
  | _ => 0
  end.

(** The Python float that numpy compares the elements of a float array with.
    The module runs under Python 2 ([import strategies] is an implicit
    relative import), whose numpy chooses the type of a comparison by the
    value of the Python float: a float between [-3.4e38] and [3.4e38] is
    converted to [float32] for an array of [float32]; with any other float
    the comparison is made in binary64, which holds every [float32]. *)
Definition np_cast (dtype : float_dtype) (x : pyfloat) : pyfloat :=
  match dtype, x with
  | Float32, FNum q =>
      match (- float32_bound ?= q), (q ?= float32_bound) with
      | Lt, Lt => round32 q
      | _, _ => x
      end
  | _, _ => x
  end.

(** [arr == nodata]: the element-wise comparison with a Python float.  The
    elements of an integer array are compared as floats. *)
Definition np_eq (arr : ndarray) (nodata : pyfloat) : list (list bool) :=
  match arr with
  | IntArray rows => map (map (λ i, float_eqb (float_of_int i) nodata)) rows
  | FloatArray dtype rows =>
      map (map (λ a, float_eqb a (np_cast dtype nodata))) rows
  end.

(** [N.isnan(arr)] *)
Definition np_isnan (arr : ndarray) : list (list bool) :=
  match arr with
  | IntArray rows => map (map (λ _, false)) rows
  | FloatArray _ rows => map (map float_isnan) rows
  end.

(** [arr[mask] = N.nan]: NaN has no integer value, and numpy converts the
    value to the element type of the array before it stores anything. *)
Definition np_setitem_nan (arr : ndarray) (mask : list (list bool))
    : result ndarray :=
  match arr with
  | IntArray _ => Raise ValueError
  | FloatArray dtype rows =>
      Ok (FloatArray dtype
            (zip_with (zip_with (λ a (m : bool), if m then FNaN else a))
               rows mask))
  end.

(** What [Band.get_array] returns: the array, or [N.ma.array(arr, mask)]. *)
Inductive array_result :=
| PlainArray (arr : ndarray)
| MaskedArray (arr : ndarray) (mask : list (list bool)).

(** ** The wrapped libraries *)

(** The six coefficients [g[0]] ... [g[5]] of [GetGeoTransform()]. *)
Record geotransform := GeoTransform {
  g0 : pyfloat; g1 : pyfloat; g2 : pyfloat;
  g3 : pyfloat; g4 : pyfloat; g5 : pyfloat
}.

(** A no-data argument: [None], the string ['nan'] (the one string
    [get_array] gives a meaning to), or a number. *)
Inductive nodata_value :=
| NdNone
| NdNanStr
| NdNum (x : pyfloat).

(** A GDAL raster band. *)
Record GdalBand := {
  GetNoDataValue : nodata_value;
  ReadAsArray : result ndarray;
  ReadRaster : pyfloat → pyfloat → Z → Z → result (list Byte.byte)
}.

(** A GDAL dataset.  [GetRasterBand] answers [None] for some indices when it
    does not raise. *)
Record GdalDataset := {
  RasterYSize : Z;
  RasterXSize : Z;
  GetGeoTransform : geotransform;
  GetProjection : result string;
  GetRasterBand : Z → result (option GdalBand)
}.

(** An [osr.SpatialReference].  [ImportFromWkt] changes the object: the
    answer is its new state.  [CloneGeogCS] answers [None] when there is no
    geographic coordinate system to clone. *)
#[warnings="-register-all"]
Inductive Srs := MkSrs {
  ImportFromWkt : string → result Srs;
  ExportToProj4 : result string;
  CloneGeogCS : result (option Srs)
}.

(** The values the attributes of a [Dataset] hold. *)
Inductive pyval :=
| PyNone
| PyBool (b : bool)
| PyStr (s : string)
| PyShape (shape : Z * Z)
| PySelf
| PyGdal (h : GdalDataset)
| PyOsr (o : Srs)
| PyCrs (c : gmap string string).

(** A Python object: its attribute dictionary. *)
Abbreviation object := (gmap string pyval).

(** [strategies.nearest] and its like. *)
Definition strategy : Type := array_result → pyobj → result pyobj.

(** What the module imports and does not define; [polygon_area] is the
    [area] that shapely answers for a polygon with this shell and these
    holes. *)
Record Libs := {
  G_Open : string → result GdalDataset;
  osr_SpatialReference : result Srs;
  from_string : string → result (gmap string string);
  strategies_nearest : strategy;
  area_extract_area : object → pyobj → list Z → result pyobj;
  polygon_area : list vertex → list (list vertex) → pyfloat
}.

(** [geometry.area]: a point and a line have none. *)
Definition area (L : Libs) (geom : pyobj) : result pyfloat :=
  match geom with
  | Geom (Point _) => Ok (FNum 0)
  | Geom (LineString _) => Ok (FNum 0)
  | Geom (Polygon shell holes) => Ok (polygon_area L shell holes)
  | Matrix _ => Raise AttributeError
  end.

(** ** Statements that assign attributes of [self] *)

Definition exec (A : Type) : Type := object → object * result A.

#[global] Instance exec_ret : MRet exec := λ A a self, (self, Ok a).
#[global] Instance exec_bind : MBind exec := λ A B f m self,
  match m self with
  | (self', Ok a) => f a self'
  | (self', Raise e) => (self', Raise e)
  end.

(** [self.name = v] *)
Definition setattr (name : string) (v : pyval) : exec () :=
  λ self, (<[name := v]> self, Ok ()).

(** [self.name] *)
Definition getattr (name : string) : exec pyval :=
  λ self, (self, match self !! name with
                 | Some v => Ok v
                 | None => Raise AttributeError
                 end).

(** A call into a library. *)
Definition call {A} (r : result A) : exec A := λ self, (self, r).

(** [try: body except E: handler], for the exceptions [catches] accepts. *)
Definition try_except {A} (body : exec A) (catches : exn → bool)
    (handler : exec A) : exec A :=
  λ self,
    match body self with
    | (self', Raise e) => if catches e then handler self' else (self', Raise e)
    | done => done
    end.

(** [ds.__gdal__], to call a method of it: [None] has none. *)
Definition gdal_handle (ds : object) : result GdalDataset :=
  match ds !! "__gdal__" with
  | Some (PyGdal h) => Ok h
  | _ => Raise AttributeError
  end.

Definition self_gdal : exec GdalDataset := λ self, (self, gdal_handle self).

Definition self_osr : exec Srs :=
  v ← getattr "__osr__";
  match v with
  | PyOsr o => mret o
  | _ => call (Raise AttributeError)
  end.

Definition self_wkt : exec string :=
  v ← getattr "wkt";
  match v with
  | PyStr s => mret s
  | _ => call (Raise TypeError)
  end.

(** ** class RasterProxy *)

(** [self.__dataset__]: the dataset itself, or the dataset of a band. *)
Class RasterProxy (T : Type) := proxy_dataset : T → result object.

Definition geomatrix `{RasterProxy T} (self : T) : result geotransform :=
  ds ← proxy_dataset self;
  h ← gdal_handle ds;
  Ok (GetGeoTransform h).

(** The [project_coord] of [pixel_coordinates].  With [snap] the two
    coordinates are made integers, [x] first; the geometry that shapely
    builds holds them as floats. *)
Definition pixel_project_coord (geomatrix : result geotransform) (snap : bool)
    (x y : pyfloat) (z : option pyfloat) : result vertex :=
  g ← geomatrix;
  x ← py_div (float_sub x (g0 g)) (g1 g);
  y ← py_div (float_sub y (g3 g)) (g5 g);
  if snap then
    x ← py_int x;
    y ← py_int y;
    Ok (float_of_int x, float_of_int y, z)
  else Ok (x, y, z).

Definition pixel_coordinates `{RasterProxy T} (self : T) (geometry : pyobj)
    (snap : bool) : result pyobj :=
  transform (pixel_project_coord (geomatrix self) snap) geometry.

(** The [project_coord] of [map_coordinates]. *)
Definition map_project_coord (g : geotransform) (x y : pyfloat)
    (z : option pyfloat) : vertex :=
  let x := float_add (float_add (g0 g) (float_mul (g1 g) x))
             (float_mul (g2 g) y) in
  let y := float_add (float_add (g3 g) (float_mul (g4 g) x))
             (float_mul (g5 g) y) in
  (x, y, z).

Definition map_coordinates `{RasterProxy T} (self : T) (geometry : pyobj)
    : result pyobj :=
  g ← geomatrix self;
  transform (λ x y z, Ok (map_project_coord g x y z)) geometry.

(** ** class Band *)

Record Band := {
  band_dataset : object;        (* [self.__dataset__] *)
  band_index : Z;               (* [self.index] *)
  band_gdal : GdalBand;         (* [self.__gdal__] *)
  band_shape : pyval;           (* [self.shape] *)
  band_nodata : nodata_value    (* [self.nodata] *)
}.

#[global] Instance Band_proxy : RasterProxy Band := λ self, Ok (band_dataset self).

(** [Band.__init__(self, dataset, index)] *)
Definition Band_init (dataset : object) (index : Z) : result Band :=
  h ← gdal_handle dataset;
  gdal ← GetRasterBand h (index + 1);
  shape ← (getattr "shape" dataset).2;
  match gdal with
  | None => Raise AttributeError
  | Some gdal =>
      Ok {| band_dataset := dataset; band_index := index; band_gdal := gdal;
            band_shape := shape; band_nodata := GetNoDataValue gdal |}
  end.

Definition get_array (self : Band) (nodata : nodata_value)
    : result array_result :=
  arr ← ReadAsArray (band_gdal self);
  let nodata := match nodata with NdNone => band_nodata self | _ => nodata end in
  match nodata with
  | NdNanStr => Ok (MaskedArray arr (np_isnan arr))
  | NdNum x =>
      match np_setitem_nan arr (np_eq arr x) with
      | Ok arr' => Ok (PlainArray arr')
      | Raise e => if is_ValueError e then Ok (PlainArray arr) else Raise e
      end
  | NdNone => Ok (PlainArray arr)
  end.

(** The names bound at module level when a method runs. *)
Definition module_globals : list string :=
  ["__name__"; "__doc__"; "__file__"; "__package__"; "__path__";
   "__builtins__"; "division"; "struct"; "N"; "osr"; "G"; "Proj";
   "from_string"; "shape"; "transform"; "Transformation"; "strategies";
   "open"; "RasterProxy"; "Band"; "Dataset"].

(** The built-in names of Python 2. *)
Definition builtins : list string :=
  ["ArithmeticError"; "AssertionError"; "AttributeError"; "BaseException";
   "BufferError"; "BytesWarning"; "DeprecationWarning"; "EOFError";
   "Ellipsis"; "EnvironmentError"; "Exception"; "False";
   "FloatingPointError"; "FutureWarning"; "GeneratorExit"; "IOError";
   "ImportError"; "ImportWarning"; "IndentationError"; "IndexError";
   "KeyError"; "KeyboardInterrupt"; "LookupError"; "MemoryError";
   "NameError"; "None"; "NotImplemented"; "NotImplementedError"; "OSError";
   "OverflowError"; "PendingDeprecationWarning"; "ReferenceError";
   "RuntimeError"; "RuntimeWarning"; "StandardError"; "StopIteration";
   "SyntaxError"; "SyntaxWarning"; "SystemError"; "SystemExit"; "TabError";
   "True"; "TypeError"; "UnboundLocalError"; "UnicodeDecodeError";
   "UnicodeEncodeError"; "UnicodeError"; "UnicodeTranslateError";
   "UnicodeWarning"; "UserWarning"; "ValueError"; "Warning";
   "ZeroDivisionError"; "__debug__"; "__doc__"; "__import__"; "__name__";
   "__package__"; "abs"; "all"; "any"; "apply"; "basestring"; "bin"; "bool";
   "buffer"; "bytearray"; "bytes"; "callable"; "chr"; "classmethod"; "cmp";
   "coerce"; "compile"; "complex"; "copyright"; "credits"; "delattr"; "dict";
   "dir"; "divmod"; "enumerate"; "eval"; "execfile"; "exit"; "file";
   "filter"; "float"; "format"; "frozenset"; "getattr"; "globals";
   "hasattr"; "hash"; "help"; "hex"; "id"; "input"; "int"; "intern";
   "isinstance"; "issubclass"; "iter"; "len"; "license"; "list"; "locals";
   "long"; "map"; "max"; "memoryview"; "min"; "next"; "object"; "oct";
   "open"; "ord"; "pow"; "print"; "property"; "quit"; "range"; "raw_input";
   "reduce"; "reload"; "repr"; "reversed"; "round"; "set"; "setattr";
   "slice"; "sorted"; "staticmethod"; "str"; "sum"; "super"; "tuple";
   "type"; "unichr"; "unicode"; "vars"; "xrange"; "zip"].

(** What a name evaluates to: a number, or some other object. *)
Inductive pyarg :=
| ArgNum (q : pyfloat)
| ArgObject.

Fixpoint assoc (locals : list (string * pyarg)) (name : string)
    : option pyarg :=
  match locals with
  | [] => None
  | (n, v) :: rest => if String.eqb n name then Some v else assoc rest name
  end.

(** Evaluation of a name: the locals, then the module, then the built-ins. *)
Definition lookup_name (locals : list (string * pyarg)) (name : string)
    : result pyarg :=
  match assoc locals name with
  | Some v => Ok v
  | None =>
      if existsb (String.eqb name) module_globals then Ok ArgObject
      else if existsb (String.eqb name) builtins then Ok ArgObject
      else Raise NameError
  end.

(** [struct.unpack('h', s)[0]]: a signed 16-bit integer from two bytes
    (least significant first). *)
Definition struct_unpack_h (s : list Byte.byte) : result Z :=
  match s with
  | [lo; hi] =>
      let u := (Z.of_N (Byte.to_N lo) + 256 * Z.of_N (Byte.to_N hi))%Z in
      Ok (if (u <? 32768)%Z then u else (u - 65536)%Z)
  | _ => Raise StructError
  end.

Definition get_pixel (self : Band) (x y : pyfloat) : result Z :=
  let locals := [("self", ArgObject); ("x", ArgNum x); ("y", ArgNum y)] in
  let ReadRaster := ReadRaster (band_gdal self) in
  px ← lookup_name locals "px";
  py ← lookup_name locals "py";
  structval ← match px, py with
              | ArgNum px, ArgNum py => ReadRaster px py 1%Z 1%Z
              | _, _ => Raise TypeError
              end;
  struct_unpack_h structval.

Definition extract_area (L : Libs) (self : Band) (pixel_geometry : pyobj)
    : result pyobj :=
  dataset ← proxy_dataset self;
  area_extract_area L dataset pixel_geometry [band_index self].

Definition extract_pixels (L : Libs) (self : Band) (pixel_geometry : pyobj)
    (strategy : strategy) : result pyobj :=
  a ← area L pixel_geometry;
  if float_eqb a (FNum 0) then
    arr ← get_array self NdNone;
    strategy arr pixel_geometry
  else extract_area L self pixel_geometry.

(** [strategy] is a parameter of [extract]; the call of [extract_pixels] is
    made without it, so that [extract_pixels] takes its default. *)
Definition extract (L : Libs) (self : Band) (geometry : pyobj)
    (strategy : strategy) : result pyobj :=
  pixel_geometry ← pixel_coordinates self geometry false;
  pixels ← extract_pixels L self pixel_geometry (strategies_nearest L);
  map_coordinates self pixels.

(** ** class Dataset *)

#[global] Instance Dataset_proxy : RasterProxy object := λ self,
  match self !! "__dataset__" with
  | Some PySelf => Ok self
  | _ => Raise AttributeError
  end.

(** The body of the [try] statement of [Dataset.__init__]. *)
Definition projection_block (L : Libs) : exec () :=
  h ← self_gdal;
  wkt ← call (GetProjection h);
  setattr "wkt" (PyStr wkt);;
  osr ← call (osr_SpatialReference L);
  setattr "__osr__" (PyOsr osr);;
  osr ← self_osr;
  wkt ← self_wkt;
  osr ← call (ImportFromWkt osr wkt);
  setattr "__osr__" (PyOsr osr);;
  osr ← self_osr;
  proj4 ← call (ExportToProj4 osr);
  crs ← call (from_string L proj4);
  setattr "crs" (PyCrs crs);;
  osr ← self_osr;
  geogcs ← call (CloneGeogCS osr);
  proj4 ← call (match geogcs with
                | Some geogcs => ExportToProj4 geogcs
                | None => Raise AttributeError
                end);
  gcs ← call (from_string L proj4);
  setattr "gcs" (PyCrs gcs);;
  setattr "projected" (PyBool true).

(** [Dataset.__init__(self, filename)] *)
Definition Dataset_init (L : Libs) (filename : string) : exec () :=
  setattr "__dataset__" PySelf;;
  h ← call (G_Open L filename);
  setattr "__gdal__" (PyGdal h);;
  hy ← self_gdal;
  hx ← self_gdal;
  setattr "shape" (PyShape (RasterYSize hy, RasterXSize hx));;
  try_except (projection_block L) is_AttributeError
    (setattr "projected" (PyBool false)).

(** [Dataset(filename)]: a new object, initialised. *)
Definition Dataset (L : Libs) (filename : string) : result object :=
  match Dataset_init L filename ∅ with
  | (self, Ok _) => Ok self
  | (_, Raise e) => Raise e
  end.

Definition get_band (self : object) (index : Z) : result Band :=
  Band_init self index.

Definition close : exec () := setattr "__gdal__" PyNone.

(** ** class open *)

Record open := { image : object }.

(** [open.__init__(self, filename)] *)
Definition open_init (L : Libs) (filename : string) : result open :=
  image ← Dataset L filename;
  Ok {| image := image |}.

(** [open.__enter__(self)] *)
Definition open_enter (self : open) : object := image self.

(** [open.__exit__(self, exception_type, exception_val, trace)]: the new
    state of [self], and what the method returns. *)
Definition open_exit (self : open) (exception_type : option exn)
    (exception_val : option string) (trace : option string)
    : open * result () :=
  let '(image, r) := close (image self) in
  ({| image := image |}, r).

(** [with open(filename) as img: body].  The body works on the object that
    [image] refers to.  [__exit__] is called when the body ends, with the
    exception of the body if it raised one; it returns [None], so that this
    exception is raised again. *)
Definition with_open {A} (L : Libs) (filename : string) (body : exec A)
    : option open * result A :=
  match open_init L filename with
  | Raise e => (None, Raise e)
  | Ok mgr =>
      let '(img, r) := body (open_enter mgr) in
      let exc := match r with Raise e => Some e | Ok _ => None end in
      match open_exit {| image := img |} exc None None with
      | (mgr, Ok _) => (Some mgr, r)
      | (mgr, Raise e) => (Some mgr, Raise e)
      end
  end.


(** ** The rest of class Dataset *)

(** What the module reads from GDAL, numpy and [proj] beyond the above, by
    handle: [RasterCount], the [ReadRaster] of a dataset (offsets, sizes and
    band list), [G.GetDataTypeName(band.DataType)], [N.fromstring(buffer,
    dtype)] as the flat list of its values, the list that
    [N.ma.masked_array(arr, arr == nodata).mean(axis=1).mean(axis=1)
    .filled(N.nan).flatten()] holds for the blocks [arr], and
    [Transformation(crs, crs')] with the type [T] of its objects. *)
Record Raster (T : Type) := {
  RasterCount : GdalDataset → Z;
  DatasetReadRaster :
    GdalDataset → Z → Z → Z → Z → list Z → result (list Byte.byte);
  GetDataTypeName : GdalBand → string;
  N_fromstring : list Byte.byte → string → result (list pyfloat);
  N_ma_window_means : list (list (list pyfloat)) → nodata_value → list pyfloat;
  Transformation : pyval → pyval → result T
}.
Arguments RasterCount {T} _ _.
Arguments DatasetReadRaster {T} _ _ _ _ _ _ _.
Arguments GetDataTypeName {T} _ _.
Arguments N_fromstring {T} _ _ _.
Arguments N_ma_window_means {T} _ _ _.
Arguments Transformation {T} _ _ _.

(** [Dataset.transformation(self, crs)] *)
Definition transformation {T} (R : Raster T) (self : object) (crs : pyval)
    : result T :=
  self_crs ← (getattr "crs" self).2;
  Transformation R crs self_crs.

(** [Band.dtype] *)
Definition band_dtype {T} (R : Raster T) (self : Band) : string :=
  GetDataTypeName R (band_gdal self).

(** [Dataset.dtype] *)
Definition dataset_dtype {T} (R : Raster T) (self : object) : result string :=
  band ← get_band self 0;
  Ok (band_dtype R band).

(** [Dataset.nodata] *)
Definition dataset_nodata (self : object) : result nodata_value :=
  band ← get_band self 0;
  Ok (band_nodata band).

(** [Dataset.__len__] *)
Definition dataset_len {T} (R : Raster T) (self : object) : result Z :=
  h ← gdal_handle self;
  Ok (RasterCount R h).

(** [range(n)] *)
Definition py_range (n : Z) : list Z := map Z.of_nat (seq 0 (Z.to_nat n)).

(** [a // b] on integers. *)
Definition py_floordiv (a b : Z) : result Z :=
  if decide (b = 0%Z) then Raise ZeroDivisionError else Ok (a `div` b)%Z.

(** [int(x-1//window)]: the division binds tighter than the subtraction. *)
Definition profile_offset (x : pyfloat) (window : Z) : result Z :=
  q ← py_floordiv 1 window;
  py_int (float_sub x (float_of_int q)).

(** The list cut in pieces of [n] elements. *)
Fixpoint chunks {A} (n : nat) (count : nat) (l : list A) : list (list A) :=
  match count with
  | O => []
  | S count => take n l :: chunks n count (drop n l)
  end.

(** [arr.reshape((n, window, window))] *)
Definition np_reshape3 (arr : list pyfloat) (n window : Z)
    : result (list (list (list pyfloat))) :=
  if decide (n < 0 ∨ window < 0)%Z then Raise ValueError
  else if decide (Z.of_nat (length arr) = n * window * window)%Z then
    let w := Z.to_nat window in
    Ok (map (chunks w w) (chunks (w * w) (Z.to_nat n) arr))
  else Raise ValueError.

(** [Dataset.profile(self, x, y, bands, window)] *)
Definition profile {T} (R : Raster T) (self : object) (x y : pyfloat)
    (bands : option (list Z)) (window : Z) : result (list pyfloat) :=
  bands ← match bands with
          | None => n ← dataset_len R self; Ok (py_range n)
          | Some bands => Ok bands
          end;
  let bands := map (λ b, b + 1)%Z bands in
  h ← gdal_handle self;
  xoff ← profile_offset x window;
  yoff ← profile_offset y window;
  buffer ← DatasetReadRaster R h xoff yoff window window bands;
  dtype ← dataset_dtype R self;
  arr ← N_fromstring R buffer dtype;
  n ← dataset_len R self;
  arr ← np_reshape3 arr n window;
  nodata ← dataset_nodata self;
  Ok (N_ma_window_means R arr nodata).

(** ** The statements of the specification *)

(** The affine map as the specification writes it:
    [x' = a + b·x + c·y; y' = d + e·x + f·y], in float arithmetic. *)
Definition affine_spec (g : geotransform) (x y : pyfloat) : pyfloat * pyfloat :=
  (float_add (float_add (g0 g) (float_mul (g1 g) x)) (float_mul (g2 g) y),
   float_add (float_add (g3 g) (float_mul (g4 g) x)) (float_mul (g5 g) y)).

(** A function of the coordinates, as a function of the vertex. *)
Definition on_vertex (f : pyfloat → pyfloat → option pyfloat → vertex)
    (v : vertex) : vertex :=
  let '(x, y, z) := v in f x y z.

(** The geometry with [f] applied to each of its vertices. *)
Definition map_vertices (f : vertex → vertex) (geom : geometry) : geometry :=
  match geom with
  | Point v => Point (f v)
  | LineString vs => LineString (map f vs)
  | Polygon shell holes => Polygon (map f shell) (map (map f) holes)
  end.

(** Pixel to map, and back to pixel. *)
Definition round_trip `{RasterProxy T} (self : T) (geometry : pyobj)
    : result pyobj :=
  mapped ← map_coordinates self geometry;
  pixel_coordinates self mapped false.

(** The vertices of a geometry, in order, and their [z] coordinates. *)
Definition vertices (geom : geometry) : list vertex :=
  match geom with
  | Point v => [v]
  | LineString vs => vs
  | Polygon shell holes => shell ++ concat holes
  end.

Definition heights (geom : geometry) : list (option pyfloat) :=
  map snd (vertices geom).

(** The geotransform without rotation terms whose origin is [(a0, a3)] and
    whose scales are [a1] and [a5]. *)
Definition north_up_transform (a0 a1 a3 a5 : Qc) : geotransform :=
  GeoTransform (FNum a0) (FNum a1) (FNum 0) (FNum a3) (FNum 0) (FNum a5).


(** The map vertex [v] holds two numbers of binary64, and
    [pixel_coordinates] computes its pixel coordinates on
    [north_up_transform] without rounding: the two differences and the two
    quotients are numbers of binary64. *)
Definition unmaps_exactly (a0 a1 a3 a5 : Qc) (v : vertex) : Prop :=
  ∃ x y, v.1 = (FNum x, FNum y)
         ∧ exact64 x ∧ exact64 y
         ∧ exact64 (x - a0) ∧ exact64 ((x - a0) / a1)
         ∧ exact64 (y - a3) ∧ exact64 ((y - a3) / a5).

(** What [pixel_coordinates] computes for a vertex, without snapping, where
    no scale is zero. *)
Definition pixel_vertex (g : geotransform) (v : vertex) : vertex :=
  let '(x, y, z) := v in
  (float_div (float_sub x (g0 g)) (g1 g),
   float_div (float_sub y (g3 g)) (g5 g), z).

(** [k] is [q] rounded towards zero. *)
Definition truncation (q : Qc) (k : Z) : Prop :=
  (0 <= q → Z2Qc k <= q ∧ q < Z2Qc (k + 1))
  ∧ (q <= 0 → Z2Qc (k - 1) < q ∧ q <= Z2Qc k).

(** Some element of the array is equal to the no-data value, as numpy
    compares them. *)
Definition nodata_survives (arr : ndarray) (nodata : pyfloat) : bool :=
  existsb (existsb id) (np_eq arr nodata).

Definition array_of (r : array_result) : ndarray :=
  match r with
  | PlainArray arr => arr
  | MaskedArray arr _ => arr
  end.

(** The element in row [i] and column [j]. *)
Definition float_at (rows : list (list pyfloat)) (i j : nat) : option pyfloat :=
  row ← rows !! i; row !! j.

Definition mask_at (mask : list (list bool)) (i j : nat) : option bool :=
  row ← mask !! i; row !! j.

(** The no-data value [get_array] works with: its argument, or the one of
    the band when the argument is [None]. *)
Definition effective_nodata (self : Band) (nodata : nodata_value)
    : nodata_value :=
  match nodata with
  | NdNone => band_nodata self
  | _ => nodata
  end.

(** The element in row [i] and column [j] of the array is NaN. *)
Definition nan_at (arr : ndarray) (i j : nat) : Prop :=
  match arr with
  | IntArray _ => False
  | FloatArray _ rows => float_at rows i j = Some FNaN
  end.

(** The attributes of a new dataset when its [try] statement starts. *)
Definition before_projection (h : GdalDataset) : object :=
  <["shape" := PyShape (RasterYSize h, RasterXSize h)]>
    (<["__gdal__" := PyGdal h]> (<["__dataset__" := PySelf]> ∅)).

(** The statement [m] leaves the attribute [name] as it is. *)
Definition preserves {A} (name : string) (m : exec A) : Prop :=
  ∀ self, (m self).1 !! name = self !! name.

(** ** Sample answers of the libraries *)

(** The float of a small integer, and of a decimal fraction. *)
Definition fz (z : Z) : pyfloat := FNum (Z2Qc z).
Definition decimal (n : Z) (d : positive) : pyfloat := round64 (Q2Qc (n # d)).

Definition north_up : geotransform := north_up_transform (Z2Qc 100) (Z2Qc 2) (Z2Qc 50) (Z2Qc (-2)).
Definition sheared : geotransform :=
  GeoTransform (fz 0) (fz 1) (fz 1) (fz 0) (fz 0) (fz 1).
Definition shifted : geotransform :=
  GeoTransform (fz 1) (fz 1) (fz 0) (fz 0) (fz 1) (fz 1).
Definition flat : geotransform :=
  GeoTransform (fz 0) (fz 0) (fz 0) (fz 0) (fz 0) (fz 1).
(** Geotransforms on which the round trip rounds: an origin that absorbs
    the pixel, a scale that overflows, decimal fractions. *)
Definition far_origin : geotransform :=
  north_up_transform (Z2Qc (10 ^ 16)) 1 (Z2Qc (10 ^ 16)) (Z2Qc (-1)).
Definition huge_scale : geotransform :=
  GeoTransform (fz 0) (round64 (Z2Qc (10 ^ 308))) (fz 0) (fz 0) (fz 0) (fz 1).
Definition tenths : geotransform :=
  GeoTransform (decimal 1001 10) (decimal 1 10) (fz 0)
    (decimal 503 10) (fz 0) (float_opp (decimal 1 10)).

Definition float_band : GdalBand :=
  {| GetNoDataValue := NdNum (fz 0);
     ReadAsArray := Ok (FloatArray Float64
                          [[fz 0; fz 1; FNaN]; [FInf false; fz 0; fz 7]]);
     ReadRaster := λ _ _ _ _, Ok [Byte.x01; Byte.x00] |}.

(** A band of [float32] elements whose no-data value is the Python float
    [0.1]; its first element is the [float32] nearest to [0.1]. *)
Definition float32_band : GdalBand :=
  {| GetNoDataValue := NdNum (decimal 1 10);
     ReadAsArray := Ok (FloatArray Float32
                          [[round32 (Q2Qc (1 # 10)); fz 1]]);
     ReadRaster := λ _ _ _ _, Ok [Byte.x01; Byte.x00] |}.

Definition int_band : GdalBand :=
  {| GetNoDataValue := NdNum (fz 0);
     ReadAsArray := Ok (IntArray [[0; 1; 2]; [3; 0; 7]]%Z);
     ReadRaster := λ _ _ _ _, Ok [Byte.x01; Byte.x00] |}.

Definition nan_band : GdalBand :=
  {| GetNoDataValue := NdNanStr;
     ReadAsArray := ReadAsArray float_band;
     ReadRaster := ReadRaster float_band |}.

Definition sample_gdal (g : geotransform) (band : GdalBand)
    (projection : result string) : GdalDataset :=
  {| RasterYSize := 2;
     RasterXSize := 3;
     GetGeoTransform := g;
     GetProjection := projection;
     GetRasterBand := λ i, if (i =? 1)%Z then Ok (Some band)
                           else Raise RuntimeError |}.

(** A spatial reference that answers [geogcs] to [CloneGeogCS] once a WKT
    string is imported. *)
Definition sample_srs (geogcs : result (option Srs)) : Srs :=
  MkSrs (λ _, Ok (MkSrs (λ _, Raise RuntimeError) (Ok "+proj=utm") geogcs))
        (Raise RuntimeError) (Ok None).

Definition longlat : Srs :=
  MkSrs (λ _, Raise RuntimeError) (Ok "+proj=longlat") (Ok None).

(** An area for polygons: 1 for a shell that has vertices. *)
Definition sample_libs (h : GdalDataset) (srs : Srs) : Libs :=
  {| G_Open := λ _, Ok h;
     osr_SpatialReference := Ok srs;
     from_string := λ s, Ok {[ "proj4" := s ]};
     strategies_nearest := λ _ geom, Ok geom;
     area_extract_area := λ _ _ _, Ok (Matrix []);
     polygon_area := λ shell _, match shell with [] => fz 0 | _ => fz 1 end |}.

(** An open dataset with the geotransform [g] and the band [band]. *)
Definition sample_dataset (g : geotransform) (band : GdalBand) : object :=
  <["shape" := PyShape (2, 3)%Z]>
    (<["__gdal__" := PyGdal (sample_gdal g band (Ok "PROJCS"))]>
       (<["__dataset__" := PySelf]> ∅)).

(** Its band 0. *)
Definition sample_band (g : geotransform) (band : GdalBand) : Band :=
  {| band_dataset := sample_dataset g band;
     band_index := 0;
     band_gdal := band;
     band_shape := PyShape (2, 3)%Z;
     band_nodata := GetNoDataValue band |}.

Definition utm : Srs :=
  MkSrs (λ _, Raise RuntimeError) (Ok "+proj=utm") (Ok (Some longlat)).

(** The libraries for a projected raster, for one whose spatial reference
    has no geographic coordinate system, and for one whose projection cannot
    be read. *)
Definition projected_libs : Libs :=
  sample_libs (sample_gdal north_up float_band (Ok "PROJCS"))
    (sample_srs (Ok (Some longlat))).
Definition local_libs : Libs :=
  sample_libs (sample_gdal north_up float_band (Ok "LOCAL_CS"))
    (sample_srs (Ok None)).
Definition broken_libs : Libs :=
  sample_libs (sample_gdal north_up float_band (Raise RuntimeError))
    (sample_srs (Ok (Some longlat))).

(** The dataset that [Dataset(filename)] builds with [projected_libs]. *)
Definition projected_dataset : object :=
  <["projected" := PyBool true]>
    (<["gcs" := PyCrs {[ "proj4" := "+proj=longlat" ]}]>
       (<["crs" := PyCrs {[ "proj4" := "+proj=utm" ]}]>
          (<["__osr__" := PyOsr utm]>
             (<["wkt" := PyStr "PROJCS"]>
                (before_projection
                   (sample_gdal north_up float_band (Ok "PROJCS"))))))).

Definition unit_square : geometry :=
  Polygon [(fz 0, fz 0, None); (fz 1, fz 0, None);
           (fz 1, fz 1, None); (fz 0, fz 1, None)] [].

(** Answers for a raster of [n] bands whose reads give no bytes and whose
    bytes decode to [values]. *)
Definition sample_raster (n : Z) (values : list pyfloat) : Raster () :=
  {| RasterCount := λ _, n;
     DatasetReadRaster := λ _ _ _ _ _ _, Ok [];
     GetDataTypeName := λ _, "Float32";
     N_fromstring := λ _ _, Ok values;
     N_ma_window_means := λ _ _, [];
     Transformation := λ _ _, Ok () |}.

(** *** Binary64 numbers of the machine to compare the arithmetic with *)

(** The same float (NaN is the same as NaN here). *)
Definition same_float (a b : pyfloat) : bool :=
  match a, b with
  | FNum p, FNum q => bool_decide (p = q)
  | FInf s, FInf t => bool_decide (s = t)
  | FNaN, FNaN => true
  | _, _ => false
  end.

Definition machine_int (z : Z) : float := PrimFloat.of_uint63 (Uint63.of_Z z).
Definition machine_ten : float := machine_int 10.
Definition machine_samples : list float :=
  let one := machine_int 1 in
  [PrimFloat.zero; machine_int 3;
   PrimFloat.opp (PrimFloat.div one machine_ten);
   machine_int 10000000000000000;
   Z.ldexp one 1023; Z.ldexp one (-1074);
   PrimFloat.opp (Z.ldexp (machine_int 9007199254740991) (-1070));
   PrimFloat.infinity; PrimFloat.neg_infinity; PrimFloat.nan].

(** The operation [op] of the machine and the operation [model] agree on
    every pair of [machine_samples] (on those with a divisor that is not
    zero, for a division). *)
Definition agrees (op : float → float → float)
    (model : pyfloat → pyfloat → pyfloat) (division : bool) : bool :=
  forallb (λ a,
    forallb (λ b,
      if division && float_eqb (of_binary64 b) (FNum 0) then true
      else same_float (of_binary64 (op a b))
             (model (of_binary64 a) (of_binary64 b)))
      machine_samples)
    machine_samples.

(** * Properties *)

(** ** Floats *)

#[global] Arguments round_float : simpl never.
#[global] Arguments round64 : simpl never.
#[global] Arguments round32 : simpl never.

Ltac Qc_compute :=
  vm_compute;
  repeat (lazymatch goal with
          | |- @eq Qc _ _ => apply Qc_is_canon; vm_compute; reflexivity
          | |- _ => f_equal
          end).

Ltac exact64_compute := unfold exact64; Qc_compute.

(** The arithmetic agrees with the binary64 of the machine on the samples. *)
Example binary64_add_agrees : agrees PrimFloat.add float_add false = true.
Proof. vm_compute. reflexivity. Qed.

Example binary64_sub_agrees : agrees PrimFloat.sub float_sub false = true.
Proof. vm_compute. reflexivity. Qed.

Example binary64_mul_agrees : agrees PrimFloat.mul float_mul false = true.
Proof. vm_compute. reflexivity. Qed.

Example binary64_div_agrees : agrees PrimFloat.div float_div true = true.
Proof. vm_compute. reflexivity. Qed.

(** The [float32] nearest to [0.1] is [13421773 / 2^27]; it is not the Python
    float [0.1]. *)
Example round32_tenth :
  round32 (Q2Qc (1 # 10)) = FNum (Q2Qc (13421773 # 134217728))
  ∧ round32 (Q2Qc (1 # 10)) ≠ round64 (Q2Qc (1 # 10)).
Proof. split; [Qc_compute|vm_compute; discriminate]. Qed.

Lemma round64_0 : round64 0 = FNum 0.
Proof. reflexivity. Qed.

Lemma float_eqb_nonzero q : q ≠ 0 → float_eqb (FNum q) (FNum 0) = false.
Proof. intros Hq. apply bool_decide_eq_false_2. exact Hq. Qed.

(** Rewrites a rounded term that is equal to [q], a number of binary64 by
    [H]. *)
Ltac round_to q H :=
  match goal with
  | |- context [round64 ?t] =>
      replace t with q by (first [ring | field; assumption]);
      rewrite H
  end.

(** ** Results and vertices *)

Section mapM_result.
Context {A B : Type}.

Lemma mapM_Ok (f : A → result B) (g : A → B) (l : list A) :
  (∀ x, f x = Ok (g x)) → mapM f l = Ok (map g l).
Proof.
  intros Hf. induction l as [|x l IH]; [reflexivity|].
  cbn. rewrite Hf. cbn. rewrite IH. reflexivity.
Qed.


Lemma map_id_ext (h : A → A) (l : list A) :
  (∀ x, h x = x) → map h l = l.
Proof.
  intros Hh. induction l as [|x l IH]; [reflexivity|].
  cbn. rewrite Hh, IH. reflexivity.
Qed.
End mapM_result.

Lemma transform_geometry_Ok func (f : vertex → vertex) geom :
  (∀ v, apply_coord func v = Ok (f v)) →
  transform_geometry func geom = Ok (map_vertices f geom).
Proof.
  intros Hf. destruct geom as [v|vs|shell holes]; cbn.
  - rewrite Hf. reflexivity.
  - rewrite (mapM_Ok _ f) by assumption. reflexivity.
  - rewrite (mapM_Ok _ f) by assumption. cbn.
    rewrite (mapM_Ok _ (map f)); [reflexivity|].
    intros ring. apply mapM_Ok. assumption.
Qed.


(** ** The affine arithmetic *)

Lemma map_coordinates_pointwise `{RasterProxy T} (self : T) g geom :
  geomatrix self = Ok g →
  map_coordinates self (Geom geom) =
    Ok (Geom (map_vertices (on_vertex (map_project_coord g)) geom)).
Proof.
  intros Hg. unfold map_coordinates. rewrite Hg. cbn.
  rewrite (transform_geometry_Ok _ (on_vertex (map_project_coord g))).
  - reflexivity.
  - intros [[x y] z]. reflexivity.
Qed.




Ltac maps_exactly_compute :=
  repeat constructor;
  eexists _, _; (split; [reflexivity|]);
  repeat split; exact64_compute.



Example round_trip_flat :
  round_trip (sample_dataset flat float_band) (Geom (Point (fz 1, fz 1, None)))
  = Raise ZeroDivisionError.
Proof. reflexivity. Qed.

(** Where the map rounds, the way back does not find the pixel: an origin of
    [1e16] absorbs the pixel [(1, 1)], a scale of [1e308] overflows, and
    decimal fractions leave a rounding error. *)
Example round_trip_far_origin :
  round_trip (sample_dataset far_origin float_band)
    (Geom (Point (fz 1, fz 1, None)))
  = Ok (Geom (Point (fz 0, fz 0, None))).
Proof. Qc_compute. Qed.

Example round_trip_huge_scale :
  round_trip (sample_dataset huge_scale float_band)
    (Geom (Point (fz 10, fz 0, None)))
  = Ok (Geom (Point (FInf false, FNaN, None))).
Proof. Qc_compute. Qed.

Example round_trip_tenths :
  round_trip (sample_dataset tenths float_band)
    (Geom (Point (fz 3, fz 7, None)))
  = Ok (Geom (Point
          (of_binary64 (Z.ldexp (machine_int 6755399441055680) (-51)),
           of_binary64 (Z.ldexp (machine_int 7881299347898400) (-50)),
           None))).
Proof. Qc_compute. Qed.

(** C2: [map_coordinates] does not compute [d + e·x + f·y] from the [x] it is
    given.  With the geotransform [(1, 1, 0, 0, 1, 1)] the vertex [(0, 0)] is
    sent to [(1, 1)], where the affine map of the specification gives
    [(1, 0)]. *)
Theorem map_coordinates_reads_new_x :
  map_coordinates (sample_dataset shifted float_band)
      (Geom (Point (fz 0, fz 0, None)))
    = Ok (Geom (Point (fz 1, fz 1, None)))
  ∧ affine_spec shifted (fz 0) (fz 0) = (fz 1, fz 0)
  ∧ fz 1 ≠ fz 0.
Proof.
  split; [|split].
  - Qc_compute.
  - Qc_compute.
  - discriminate.
Qed.

(** C3: [pixel_coordinates] does not invert a geotransform that has rotation
    terms.  With [(0, 1, 1, 0, 0, 1)] the map vertex [(3, 1)] is sent to
    [(3, 1)]; the affine map sends that to [(4, 1)], and it is [(2, 1)] that it
    sends to [(3, 1)]. *)
Theorem pixel_coordinates_ignores_rotation :
  pixel_coordinates (sample_dataset sheared float_band)
      (Geom (Point (fz 3, fz 1, None))) false
    = Ok (Geom (Point (fz 3, fz 1, None)))
  ∧ affine_spec sheared (fz 3) (fz 1) = (fz 4, fz 1)
  ∧ affine_spec sheared (fz 2) (fz 1) = (fz 3, fz 1)
  ∧ fz 4 ≠ fz 3.
Proof.
  repeat split; try Qc_compute. discriminate.
Qed.

(** ** Masking of no-data values *)

Section masks.
Context {A : Type}.

Lemma zip_with_map_r (f : A → bool → A) (h : A → bool) (l : list A) :
  zip_with f l (map h l) = map (λ a, f a (h a)) l.
Proof.
  induction l as [|a l IH]; [reflexivity|]. cbn. rewrite IH. reflexivity.
Qed.

Lemma existsb_map_false {B} (p : B → bool) (h : A → B) (l : list A) :
  (∀ a, p (h a) = false) → existsb p (map h l) = false.
Proof.
  intros Hh. induction l as [|a l IH]; [reflexivity|].
  cbn. rewrite Hh, IH. reflexivity.
Qed.
End masks.

Lemma zip_with_rows (f : pyfloat → bool → pyfloat) (h : pyfloat → bool) rows :
  zip_with (zip_with f) rows (map (map h) rows)
  = map (map (λ a, f a (h a))) rows.
Proof.
  induction rows as [|row rows IH]; [reflexivity|].
  cbn. rewrite zip_with_map_r, IH. reflexivity.
Qed.

(** The element that [arr[arr == x] = N.nan] leaves in the place of [a]. *)
Lemma masked_element_differs a x :
  float_eqb (if float_eqb a x then FNaN else a) x = false.
Proof. destruct (float_eqb a x) eqn:E; [reflexivity|assumption]. Qed.

Lemma get_array_float (self : Band) x dtype rows :
  band_nodata self = NdNum x →
  ReadAsArray (band_gdal self) = Ok (FloatArray dtype rows) →
  get_array self NdNone =
    Ok (PlainArray
          (FloatArray dtype
             (map (map (λ a, if float_eqb a (np_cast dtype x) then FNaN else a))
                rows))).
Proof.
  intros Hnd Hread. unfold get_array. rewrite Hread, Hnd. cbn.
  rewrite zip_with_rows. reflexivity.
Qed.

Lemma get_array_int (self : Band) x rows :
  band_nodata self = NdNum x →
  ReadAsArray (band_gdal self) = Ok (IntArray rows) →
  get_array self NdNone = Ok (PlainArray (IntArray rows)).
Proof. intros Hnd Hread. unfold get_array. rewrite Hread, Hnd. reflexivity. Qed.

(** C4, as amended: on a band with a declared numeric no-data value,
    [get_array()] returns a float array with every element replaced by NaN
    that is equal to the no-data value as numpy compares them, that is, to
    the no-data value converted to the element type of the array; no element
    of the result is equal to it in that comparison.  An integer array is
    returned as it was read. *)
Theorem get_array_masks_nodata (self : Band) x arr :
  band_nodata self = NdNum x →
  ReadAsArray (band_gdal self) = Ok arr →
  match arr with
  | FloatArray dtype rows =>
      get_array self NdNone =
        Ok (PlainArray
              (FloatArray dtype
                 (map (map (λ a, if float_eqb a (np_cast dtype x)
                                 then FNaN else a)) rows)))
      ∧ ∀ r, get_array self NdNone = Ok r →
             nodata_survives (array_of r) x = false
  | IntArray rows => get_array self NdNone = Ok (PlainArray arr)
  end.
Proof.
  intros Hnd Hread. destruct arr as [rows|dtype rows].
  - apply (get_array_int self x); assumption.
  - pose proof (get_array_float self x dtype rows Hnd Hread) as Hget.
    split; [exact Hget|].
    intros r Hr. rewrite Hget in Hr. injection Hr as <-.
    unfold nodata_survives. cbn. rewrite List.map_map.
    apply existsb_map_false. intros row. rewrite List.map_map.
    apply existsb_map_false. intros a. apply masked_element_differs.
Qed.

Lemma get_array_masks_nodata_witness :
  (get_array (sample_band north_up float_band) NdNone =
     Ok (PlainArray (FloatArray Float64 [[FNaN; fz 1; FNaN];
                                         [FInf false; FNaN; fz 7]]))
   ∧ nodata_survives
       (FloatArray Float64 [[FNaN; fz 1; FNaN]; [FInf false; FNaN; fz 7]])
       (fz 0) = false)
  ∧ get_array (sample_band north_up float32_band) NdNone =
      Ok (PlainArray (FloatArray Float32 [[FNaN; fz 1]])).
Proof.
  split.
  - destruct (get_array_masks_nodata (sample_band north_up float_band) (fz 0)
                (FloatArray Float64 [[fz 0; fz 1; FNaN];
                                     [FInf false; fz 0; fz 7]])
                eq_refl eq_refl) as [Hget Hnone].
    split; [exact Hget|]. apply (Hnone _ Hget).
  - destruct (get_array_masks_nodata (sample_band north_up float32_band)
                (decimal 1 10)
                (FloatArray Float32 [[round32 (Q2Qc (1 # 10)); fz 1]])
                eq_refl eq_refl) as [Hget _].
    rewrite Hget. Qc_compute.
Defined.

(** C4, as stated, fails: an integer array keeps the elements that are equal
    to the no-data value. *)
Lemma get_array_int_keeps_nodata :
  ¬ (∀ (self : Band) x arr,
       band_nodata self = NdNum x →
       ReadAsArray (band_gdal self) = Ok arr →
       ∃ r, get_array self NdNone = Ok r
            ∧ nodata_survives (array_of r) x = false).
Proof.
  intros Hall.
  destruct (Hall (sample_band north_up int_band) (fz 0)
              (IntArray [[0; 1; 2]; [3; 0; 7]]%Z) eq_refl eq_refl)
    as (r & Hget & Hnone).
  vm_compute in Hget. injection Hget as <-.
  vm_compute in Hnone. discriminate.
Qed.

Example get_array_int_band :
  get_array (sample_band north_up int_band) NdNone
  = Ok (PlainArray (IntArray [[0; 1; 2]; [3; 0; 7]]%Z)).
Proof. reflexivity. Qed.

(** The elements of a [float32] array are compared with the no-data value
    converted to [float32]: the element nearest to [0.1] is equal to the
    Python float [0.1] for numpy, and is not the same number. *)
Example get_array_float32_band :
  get_array (sample_band north_up float32_band) NdNone
    = Ok (PlainArray (FloatArray Float32 [[FNaN; fz 1]]))
  ∧ float_eqb (round32 (Q2Qc (1 # 10))) (decimal 1 10) = false.
Proof. split; [Qc_compute|vm_compute; reflexivity]. Qed.

Section lookups.
Context {A B : Type}.

Lemma lookup_map (f : A → B) (l : list A) (i : nat) :
  map f l !! i = f <$> l !! i.
Proof.
  revert i. induction l as [|a l IH]; intros [|i]; cbn; try reflexivity.
  apply IH.
Qed.
End lookups.

Lemma mask_at_isnan rows i j :
  mask_at (map (map float_isnan) rows) i j = float_isnan <$> float_at rows i j.
Proof.
  unfold mask_at, float_at. rewrite lookup_map.
  destruct (rows !! i) as [row|]; cbn; [|reflexivity].
  apply lookup_map.
Qed.

Lemma mask_at_int (rows : list (list Z)) i j :
  mask_at (map (map (λ _, false)) rows) i j ≠ Some true.
Proof.
  unfold mask_at. rewrite lookup_map.
  destruct (rows !! i) as [row|]; cbn; [|discriminate].
  rewrite lookup_map. destruct (row !! j); cbn; discriminate.
Qed.

Lemma np_isnan_exact arr i j :
  mask_at (np_isnan arr) i j = Some true ↔ nan_at arr i j.
Proof.
  destruct arr as [rows|dtype rows]; cbn.
  - split; [|contradiction]. intros H. exact (mask_at_int rows i j H).
  - rewrite mask_at_isnan.
    destruct (float_at rows i j) as [[q|s|]|]; cbn;
      split; intros H; try discriminate; reflexivity.
Qed.

(** C10: when the no-data value that [get_array] works with is the string
    ['nan'] (given as argument, or declared by the band and the argument is
    [None]), the result is a masked array whose mask is true exactly at the
    NaN elements; with any other no-data value the result is a plain
    array. *)
Theorem get_array_nan_string (self : Band) (nodata : nodata_value) arr :
  ReadAsArray (band_gdal self) = Ok arr →
  (effective_nodata self nodata = NdNanStr →
     get_array self nodata = Ok (MaskedArray arr (np_isnan arr))
     ∧ ∀ i j, mask_at (np_isnan arr) i j = Some true ↔ nan_at arr i j)
  ∧ (effective_nodata self nodata ≠ NdNanStr →
     ∃ arr', get_array self nodata = Ok (PlainArray arr')).
Proof.
  intros Hread. unfold get_array. rewrite Hread. cbn.
  fold (effective_nodata self nodata).
  split.
  - intros ->. split; [reflexivity|]. intros i j. apply np_isnan_exact.
  - intros Hne. destruct (effective_nodata self nodata) as [| |x].
    + eexists. reflexivity.
    + contradiction.
    + destruct arr as [rows|dtype rows]; cbn; eexists; reflexivity.
Qed.

Lemma get_array_nan_string_witness :
  (get_array (sample_band north_up nan_band) NdNone
     = Ok (MaskedArray
             (FloatArray Float64 [[fz 0; fz 1; FNaN];
                                  [FInf false; fz 0; fz 7]])
             [[false; false; true]; [false; false; false]]))
  ∧ (∃ arr', get_array (sample_band north_up float_band) (NdNum (fz 1))
             = Ok (PlainArray arr')).
Proof.
  split.
  - apply (get_array_nan_string (sample_band north_up nan_band) NdNone
             (FloatArray Float64 [[fz 0; fz 1; FNaN];
                                  [FInf false; fz 0; fz 7]]) eq_refl).
    reflexivity.
  - apply (get_array_nan_string (sample_band north_up float_band)
             (NdNum (fz 1))
             (FloatArray Float64 [[fz 0; fz 1; FNaN];
                                  [FInf false; fz 0; fz 7]]) eq_refl).
    discriminate.
Defined.

(** ** Band.get_pixel and Band.extract *)

(** C8: [get_pixel] raises [NameError] for every band and every [(x, y)]:
    [px], the first name it evaluates, is bound nowhere. *)
Theorem get_pixel_raises_NameError (self : Band) (x y : pyfloat) :
  get_pixel self x y = Raise NameError.
Proof. reflexivity. Qed.

(** C9: the strategy given to [extract] has no effect on its result; a
    geometry whose pixel form has no area is evaluated with
    [strategies.nearest]. *)
Theorem extract_ignores_strategy (L : Libs) (self : Band) (geometry : pyobj)
    (s : strategy) :
  extract L self geometry s = extract L self geometry (strategies_nearest L)
  ∧ ∀ pixel_geometry arr,
      pixel_coordinates self geometry false = Ok pixel_geometry →
      area L pixel_geometry = Ok (FNum 0) →
      get_array self NdNone = Ok arr →
      extract L self geometry s =
        (pixels ← strategies_nearest L arr pixel_geometry;
         map_coordinates self pixels).
Proof.
  split; [reflexivity|].
  intros pg arr Hpx Harea Harr. unfold extract, extract_pixels.
  rewrite Hpx. cbn [mbind result_bind]. rewrite Harea. cbn [mbind result_bind].
  change (float_eqb (FNum 0) (FNum 0)) with true. cbn iota.
  rewrite Harr. reflexivity.
Qed.

Lemma extract_ignores_strategy_witness :
  extract projected_libs
    (sample_band north_up float_band)
    (Geom (Point (fz 102, fz 48, None)))
    (λ _ _, Raise RuntimeError)
  = Ok (Geom (Point (fz 102, fz 48, None))).
Proof.
  rewrite (proj2 (extract_ignores_strategy _ _ _ _)
             (Geom (Point (fz 1, fz 1, None)))
             (PlainArray (FloatArray Float64 [[FNaN; fz 1; FNaN];
                                              [FInf false; FNaN; fz 7]]))).
  - Qc_compute.
  - Qc_compute.
  - reflexivity.
  - reflexivity.
Defined.

(** ** Dataset.close and the context manager *)

Lemma close_run (self : object) :
  close self = (<["__gdal__" := PyNone]> self, Ok ()).
Proof. reflexivity. Qed.

Lemma close_keeps (self : object) (name : string) :
  name ≠ "__gdal__" → (close self).1 !! name = self !! name.
Proof. intros Hne. rewrite close_run. cbn. apply lookup_insert_ne. congruence. Qed.

(** C7: [close] stores [None] in [__gdal__] and changes no other attribute
    ([shape], [wkt], [crs], [gcs] and [projected] among them); [__exit__]
    closes the image whatever its arguments are, and so does the [with]
    statement whether its body raises or not. *)
Theorem close_releases_handle (self : object) :
  (close self).2 = Ok ()
  ∧ (close self).1 !! "__gdal__" = Some PyNone
  ∧ gdal_handle (close self).1 = Raise AttributeError
  ∧ delete "__gdal__" (close self).1 = delete "__gdal__" self
  ∧ Forall (λ name, (close self).1 !! name = self !! name)
      ["shape"; "wkt"; "crs"; "gcs"; "projected"]
  ∧ (∀ exception_type exception_val trace,
       open_exit {| image := self |} exception_type exception_val trace
       = ({| image := <["__gdal__" := PyNone]> self |}, Ok ()))
  ∧ (∀ A (L : Libs) filename (body : exec A),
       with_open L filename body
       = match Dataset L filename with
         | Raise e => (None, Raise e)
         | Ok ds =>
             (Some {| image := <["__gdal__" := PyNone]> (body ds).1 |},
              (body ds).2)
         end).
Proof.
  rewrite close_run. cbn [fst snd]. repeat split.
  - apply lookup_insert_eq.
  - unfold gdal_handle. rewrite lookup_insert_eq. reflexivity.
  - apply delete_insert_eq.
  - repeat constructor; apply lookup_insert_ne; discriminate.
  - intros A L filename body. unfold with_open, open_init.
    destruct (Dataset L filename) as [ds|e]; cbn; [|reflexivity].
    unfold open_enter. cbn. destruct (body ds) as [ds' [a|e]]; reflexivity.
Qed.

(** ** Running statements *)

Section run.
Context {A B : Type}.

Lemma run_bind (m : exec A) (f : A → exec B) self self' a :
  m self = (self', Ok a) → (m ≫= f) self = f a self'.
Proof. intros Hm. unfold mbind, exec_bind. rewrite Hm. reflexivity. Qed.

Lemma run_bind_raise (m : exec A) (f : A → exec B) self self' e :
  m self = (self', Raise e) → (m ≫= f) self = (self', Raise e).
Proof. intros Hm. unfold mbind, exec_bind. rewrite Hm. reflexivity. Qed.

Lemma run_call (r : result A) a (self : object) :
  r = Ok a → call r self = (self, Ok a).
Proof. intros ->. reflexivity. Qed.

Lemma run_call_raise (r : result A) e (self : object) :
  r = Raise e → call r self = (self, Raise e).
Proof. intros ->. reflexivity. Qed.
End run.

Lemma run_setattr name v (self : object) :
  setattr name v self = (<[name := v]> self, Ok ()).
Proof. reflexivity. Qed.

Lemma run_self_gdal (self : object) h :
  self !! "__gdal__" = Some (PyGdal h) → self_gdal self = (self, Ok h).
Proof. intros Hl. unfold self_gdal, gdal_handle. rewrite Hl. reflexivity. Qed.

Lemma run_self_osr (self : object) o :
  self !! "__osr__" = Some (PyOsr o) → self_osr self = (self, Ok o).
Proof.
  intros Hl. unfold self_osr.
  rewrite (run_bind _ _ self self (PyOsr o)); [reflexivity|].
  unfold getattr. rewrite Hl. reflexivity.
Qed.

Lemma run_self_wkt (self : object) s :
  self !! "wkt" = Some (PyStr s) → self_wkt self = (self, Ok s).
Proof.
  intros Hl. unfold self_wkt.
  rewrite (run_bind _ _ self self (PyStr s)); [reflexivity|].
  unfold getattr. rewrite Hl. reflexivity.
Qed.

Ltac lookup_attr :=
  unfold before_projection;
  repeat (rewrite lookup_insert_ne by discriminate);
  apply lookup_insert_eq.

Ltac run_statement :=
  first [ apply run_setattr
        | apply run_call; eassumption
        | apply run_self_gdal; lookup_attr
        | apply run_self_osr; lookup_attr
        | apply run_self_wkt; lookup_attr ].

(** ** Dataset.__init__ *)

Lemma Dataset_init_run (L : Libs) filename h :
  G_Open L filename = Ok h →
  Dataset_init L filename ∅ =
    try_except (projection_block L) is_AttributeError
      (setattr "projected" (PyBool false)) (before_projection h).
Proof.
  intros Hopen. unfold Dataset_init.
  unfold mbind, exec_bind, setattr, call. rewrite Hopen.
  unfold self_gdal, gdal_handle. rewrite lookup_insert_eq. reflexivity.
Qed.

Lemma projection_block_Ok (L : Libs) h wkt osr osr' proj4 crs geogcs proj4' gcs :
  GetProjection h = Ok wkt →
  osr_SpatialReference L = Ok osr →
  ImportFromWkt osr wkt = Ok osr' →
  ExportToProj4 osr' = Ok proj4 →
  from_string L proj4 = Ok crs →
  CloneGeogCS osr' = Ok (Some geogcs) →
  ExportToProj4 geogcs = Ok proj4' →
  from_string L proj4' = Ok gcs →
  projection_block L (before_projection h) =
    (<["projected" := PyBool true]>
       (<["gcs" := PyCrs gcs]>
          (<["crs" := PyCrs crs]>
             (<["__osr__" := PyOsr osr']>
                (<["__osr__" := PyOsr osr]>
                   (<["wkt" := PyStr wkt]> (before_projection h)))))),
     Ok ()).
Proof.
  intros Hwkt Hosr Himport Hproj Hcrs Hgeog Hproj' Hgcs.
  unfold projection_block.
  do 15 (erewrite run_bind; [|run_statement]).
  erewrite run_bind; [|apply run_call; exact Hproj'].
  do 2 (erewrite run_bind; [|run_statement]).
  apply run_setattr.
Qed.

Lemma projection_block_no_geogcs (L : Libs) h wkt osr osr' proj4 crs :
  GetProjection h = Ok wkt →
  osr_SpatialReference L = Ok osr →
  ImportFromWkt osr wkt = Ok osr' →
  ExportToProj4 osr' = Ok proj4 →
  from_string L proj4 = Ok crs →
  CloneGeogCS osr' = Ok None →
  projection_block L (before_projection h) =
    (<["crs" := PyCrs crs]>
       (<["__osr__" := PyOsr osr']>
          (<["__osr__" := PyOsr osr]>
             (<["wkt" := PyStr wkt]> (before_projection h)))),
     Raise AttributeError).
Proof.
  intros Hwkt Hosr Himport Hproj Hcrs Hgeog.
  unfold projection_block.
  do 15 (erewrite run_bind; [|run_statement]).
  erewrite run_bind_raise; [reflexivity|].
  apply run_call_raise. reflexivity.
Qed.

(** *** Attributes a statement does not assign *)

Section frame.
Context {A B : Type}.

Lemma preserves_ret name (a : A) : preserves name (mret a).
Proof. intros self. reflexivity. Qed.

Lemma preserves_call name (r : result A) : preserves name (call r).
Proof. intros self. reflexivity. Qed.

Lemma preserves_bind name (m : exec A) (f : A → exec B) :
  preserves name m → (∀ a, preserves name (f a)) → preserves name (m ≫= f).
Proof.
  intros Hm Hf self. unfold mbind, exec_bind.
  specialize (Hm self). destruct (m self) as [self' [a|e]]; cbn in *.
  - rewrite Hf. exact Hm.
  - exact Hm.
Qed.

Lemma preserves_try_except name (body handler : exec A) catches :
  preserves name body → preserves name handler →
  preserves name (try_except body catches handler).
Proof.
  intros Hb Hh self. unfold try_except.
  specialize (Hb self). destruct (body self) as [self' [a|e]]; cbn in *.
  - exact Hb.
  - destruct (catches e); cbn; [rewrite Hh|]; exact Hb.
Qed.
End frame.

Lemma preserves_setattr name attr v : attr ≠ name → preserves name (setattr attr v).
Proof. intros Hne self. cbn. apply lookup_insert_ne. exact Hne. Qed.

Lemma preserves_getattr name attr : preserves name (getattr attr).
Proof. intros self. reflexivity. Qed.

Lemma preserves_self_gdal name : preserves name self_gdal.
Proof. intros self. reflexivity. Qed.

Lemma preserves_self_osr name : preserves name self_osr.
Proof.
  apply preserves_bind; [apply preserves_getattr|].
  intros []; first [apply preserves_ret | apply preserves_call].
Qed.

Lemma preserves_self_wkt name : preserves name self_wkt.
Proof.
  apply preserves_bind; [apply preserves_getattr|].
  intros []; first [apply preserves_ret | apply preserves_call].
Qed.

Create HintDb frame.
#[local] Hint Resolve preserves_ret preserves_call preserves_getattr
  preserves_self_gdal preserves_self_osr preserves_self_wkt : frame.

(** The [try] statement assigns [wkt], [__osr__], [crs], [gcs] and
    [projected], and nothing else. *)
Lemma projection_block_preserves (L : Libs) name :
  name ∉ ["wkt"; "__osr__"; "crs"; "gcs"; "projected"] →
  preserves name (projection_block L).
Proof.
  intros Hname.
  assert (Hne : ∀ attr, attr ∈ ["wkt"; "__osr__"; "crs"; "gcs"; "projected"]
                        → attr ≠ name) by (intros attr Hin ->; contradiction).
  unfold projection_block.
  repeat (first [ solve [auto with frame nocore]
                | apply preserves_setattr; apply Hne; set_solver
                | apply preserves_bind; [|intros ?] ]).
Qed.

Lemma Dataset_run (L : Libs) filename h :
  G_Open L filename = Ok h →
  Dataset L filename =
    match projection_block L (before_projection h) with
    | (self, Ok _) => Ok self
    | (self, Raise e) =>
        if is_AttributeError e then Ok (<["projected" := PyBool false]> self)
        else Raise e
    end.
Proof.
  intros Hopen. unfold Dataset. rewrite (Dataset_init_run L filename h Hopen).
  unfold try_except.
  destruct (projection_block L (before_projection h)) as [self [[]|e]];
    [reflexivity|].
  destruct (is_AttributeError e); reflexivity.
Qed.

Lemma Dataset_raises (L : Libs) filename e :
  G_Open L filename = Raise e → Dataset L filename = Raise e.
Proof.
  intros Hopen. unfold Dataset, Dataset_init.
  unfold mbind, exec_bind, setattr, call. rewrite Hopen. reflexivity.
Qed.

(** The attributes set before the [try] statement are those of the dataset. *)
Lemma Dataset_keeps (L : Libs) filename h ds name :
  name ∉ ["wkt"; "__osr__"; "crs"; "gcs"; "projected"] →
  G_Open L filename = Ok h →
  Dataset L filename = Ok ds →
  ds !! name = before_projection h !! name.
Proof.
  intros Hname Hopen. rewrite (Dataset_run L filename h Hopen).
  pose proof (projection_block_preserves L name Hname (before_projection h))
    as Hkeep.
  destruct (projection_block L (before_projection h)) as [self [[]|e]];
    cbn in Hkeep.
  - intros [= <-]. exact Hkeep.
  - destruct (is_AttributeError e); [|discriminate].
    intros [= <-]. rewrite lookup_insert_ne; [exact Hkeep|].
    intros <-. apply Hname. set_solver.
Qed.

(** C5: an [AttributeError] raised in the [try] statement of
    [Dataset.__init__] is caught, and the dataset is built with [projected]
    false (so it is when [CloneGeogCS] answers [None]); when every call
    succeeds [projected] is true and [wkt], [crs] and [gcs] hold what was
    read; an exception of any other type leaves the constructor. *)
Theorem Dataset_init_projection (L : Libs) filename h :
  G_Open L filename = Ok h →
  (∀ self', projection_block L (before_projection h)
              = (self', Raise AttributeError) →
     Dataset L filename = Ok (<["projected" := PyBool false]> self')
     ∧ <["projected" := PyBool false]> self' !! "projected"
       = Some (PyBool false))
  ∧ (∀ wkt osr osr' proj4 crs,
       GetProjection h = Ok wkt →
       osr_SpatialReference L = Ok osr →
       ImportFromWkt osr wkt = Ok osr' →
       ExportToProj4 osr' = Ok proj4 →
       from_string L proj4 = Ok crs →
       CloneGeogCS osr' = Ok None →
       ∃ ds, Dataset L filename = Ok ds
             ∧ ds !! "projected" = Some (PyBool false))
  ∧ (∀ wkt osr osr' proj4 crs geogcs proj4' gcs,
       GetProjection h = Ok wkt →
       osr_SpatialReference L = Ok osr →
       ImportFromWkt osr wkt = Ok osr' →
       ExportToProj4 osr' = Ok proj4 →
       from_string L proj4 = Ok crs →
       CloneGeogCS osr' = Ok (Some geogcs) →
       ExportToProj4 geogcs = Ok proj4' →
       from_string L proj4' = Ok gcs →
       ∃ ds, Dataset L filename = Ok ds
             ∧ ds !! "projected" = Some (PyBool true)
             ∧ ds !! "wkt" = Some (PyStr wkt)
             ∧ ds !! "crs" = Some (PyCrs crs)
             ∧ ds !! "gcs" = Some (PyCrs gcs))
  ∧ (∀ self' e, e ≠ AttributeError →
       projection_block L (before_projection h) = (self', Raise e) →
       Dataset L filename = Raise e).
Proof.
  intros Hopen. rewrite (Dataset_run L filename h Hopen).
  split; [|split; [|split]].
  - intros self' ->. split; [reflexivity|apply lookup_insert_eq].
  - intros wkt osr osr' proj4 crs Hwkt Hosr Himport Hproj Hcrs Hgeog.
    rewrite (projection_block_no_geogcs L h wkt osr osr' proj4 crs)
      by assumption.
    eexists. split; [reflexivity|apply lookup_insert_eq].
  - intros wkt osr osr' proj4 crs geogcs proj4' gcs
      Hwkt Hosr Himport Hproj Hcrs Hgeog Hproj' Hgcs.
    rewrite (projection_block_Ok L h wkt osr osr' proj4 crs geogcs proj4' gcs)
      by assumption.
    eexists. split; [reflexivity|].
    repeat split;
      repeat (rewrite lookup_insert_ne by discriminate);
      apply lookup_insert_eq.
  - intros self' e Hne ->. destruct e; try reflexivity. contradiction.
Qed.

Lemma Dataset_init_projection_witness :
  (∃ ds, Dataset local_libs "local.tif" = Ok ds
         ∧ ds !! "projected" = Some (PyBool false))
  ∧ (∃ ds, Dataset projected_libs "utm.tif" = Ok ds
           ∧ ds !! "projected" = Some (PyBool true)
           ∧ ds !! "wkt" = Some (PyStr "PROJCS")
           ∧ ds !! "crs" = Some (PyCrs {[ "proj4" := "+proj=utm"%string ]})
           ∧ ds !! "gcs" = Some (PyCrs {[ "proj4" := "+proj=longlat"%string ]}))
  ∧ Dataset broken_libs "broken.tif" = Raise RuntimeError.
Proof.
  split; [|split].
  - destruct (Dataset_init_projection local_libs "local.tif"
                (sample_gdal north_up float_band (Ok "LOCAL_CS")) eq_refl)
      as (Hcaught & _).
    eexists. apply Hcaught. reflexivity.
  - destruct (Dataset_init_projection projected_libs "utm.tif"
                (sample_gdal north_up float_band (Ok "PROJCS")) eq_refl)
      as (_ & _ & Hok & _).
    apply (Hok "PROJCS"%string (sample_srs (Ok (Some longlat))) utm
             "+proj=utm"%string {[ "proj4" := "+proj=utm"%string ]}
             longlat "+proj=longlat"%string
             {[ "proj4" := "+proj=longlat"%string ]});
      reflexivity.
  - destruct (Dataset_init_projection broken_libs "broken.tif"
                (sample_gdal north_up float_band (Raise RuntimeError)) eq_refl)
      as (_ & _ & _ & Hraise).
    apply (Hraise (before_projection
                     (sample_gdal north_up float_band (Raise RuntimeError)))
             RuntimeError); [discriminate|reflexivity].
Defined.

Example Dataset_projected :
  Dataset projected_libs "utm.tif" = Ok projected_dataset.
Proof. reflexivity. Qed.

(** ** Bands of a dataset *)

Lemma Band_init_shape (dataset : object) index band :
  Band_init dataset index = Ok band →
  dataset !! "shape" = Some (band_shape band).
Proof.
  unfold Band_init. destruct (gdal_handle dataset) as [h|e]; [|discriminate].
  cbn. destruct (GetRasterBand h (index + 1)) as [gdal|e]; [|discriminate].
  cbn. destruct (dataset !! "shape") as [shape|]; [|discriminate].
  cbn. destruct gdal as [gdal|]; [|discriminate].
  intros [= <-]. reflexivity.
Qed.

Lemma Band_init_returns (dataset : object) index h shape gdal :
  dataset !! "__gdal__" = Some (PyGdal h) →
  dataset !! "shape" = Some shape →
  GetRasterBand h (index + 1) = Ok (Some gdal) →
  Band_init dataset index =
    Ok {| band_dataset := dataset; band_index := index; band_gdal := gdal;
          band_shape := shape; band_nodata := GetNoDataValue gdal |}.
Proof.
  intros Hgdal Hshape Hband. unfold Band_init, gdal_handle.
  rewrite Hgdal. cbn. rewrite Hband. cbn. rewrite Hshape. reflexivity.
Qed.

Ltac not_assigned :=
  let Hin := fresh "Hin" in
  intros Hin;
  repeat (apply elem_of_cons in Hin as [Hin|Hin]; [discriminate Hin|]);
  apply elem_of_nil in Hin; exact Hin.

(** C6: every band that [get_band] returns for a dataset built by
    [Dataset(filename)] has the shape [(RasterYSize, RasterXSize)] of the
    raster, and [get_band] does return a band for every index at which the
    raster has one. *)
Theorem band_shape_is_raster_size (L : Libs) filename h ds index :
  G_Open L filename = Ok h →
  Dataset L filename = Ok ds →
  ds !! "shape" = Some (PyShape (RasterYSize h, RasterXSize h))
  ∧ (∀ band, get_band ds index = Ok band →
       band_shape band = PyShape (RasterYSize h, RasterXSize h))
  ∧ (∀ gdal, GetRasterBand h (index + 1) = Ok (Some gdal) →
       ∃ band, get_band ds index = Ok band
               ∧ band_gdal band = gdal
               ∧ band_shape band = PyShape (RasterYSize h, RasterXSize h)).
Proof.
  intros Hopen Hds.
  assert (Hshape : ds !! "shape"
                   = Some (PyShape (RasterYSize h, RasterXSize h))).
  { rewrite (Dataset_keeps L filename h ds "shape");
      [apply lookup_insert_eq|not_assigned|assumption|assumption]. }
  assert (Hgdal : ds !! "__gdal__" = Some (PyGdal h)).
  { rewrite (Dataset_keeps L filename h ds "__gdal__");
      [|not_assigned|assumption|assumption].
    unfold before_projection. rewrite lookup_insert_ne by discriminate.
    apply lookup_insert_eq. }
  split; [exact Hshape|split].
  - intros band Hband. apply Band_init_shape in Hband.
    rewrite Hshape in Hband. injection Hband as <-. reflexivity.
  - intros gdal Hraster. eexists. split; [|split].
    + apply (Band_init_returns ds index h _ gdal Hgdal Hshape Hraster).
    + reflexivity.
    + reflexivity.
Qed.

Lemma band_shape_is_raster_size_witness :
  ∃ band, get_band projected_dataset 0 = Ok band
          ∧ band_gdal band = float_band
          ∧ band_shape band = PyShape (2, 3)%Z.
Proof.
  destruct (band_shape_is_raster_size projected_libs "utm.tif"
              (sample_gdal north_up float_band (Ok "PROJCS"))
              projected_dataset 0 eq_refl eq_refl) as (_ & _ & Hband).
  apply (Hband float_band). reflexivity.
Defined.

(** A closed dataset has no band. *)
Lemma get_band_closed (ds : object) index :
  get_band (close ds).1 index = Raise AttributeError.
Proof.
  unfold get_band, Band_init, gdal_handle. rewrite close_run. cbn [fst].
  rewrite lookup_insert_eq. reflexivity.
Qed.


(** * Further properties *)

(** ** Coordinates *)

Lemma map_vertices_compose f h geom :
  map_vertices f (map_vertices h geom) = map_vertices (f ∘ h) geom.
Proof.
  destruct geom as [v|vs|shell holes]; cbn; [reflexivity| |].
  - f_equal. rewrite List.map_map. reflexivity.
  - f_equal.
    + rewrite List.map_map. reflexivity.
    + rewrite List.map_map. apply List.map_ext. intros ring.
      rewrite List.map_map. reflexivity.
Qed.

Lemma map_fix {A} (f : A → A) (l : list A) :
  Forall (λ x, f x = x) l → map f l = l.
Proof.
  induction 1 as [|x l Hx _ IH]; [reflexivity|].
  cbn. rewrite Hx, IH. reflexivity.
Qed.

(** A function that leaves the vertices of a geometry as they are leaves the
    geometry as it is. *)
Lemma map_vertices_fix f geom :
  Forall (λ v, f v = v) (vertices geom) → map_vertices f geom = geom.
Proof.
  destruct geom as [v|vs|shell holes]; cbn [vertices map_vertices].
  - intros Hv. apply Forall_inv in Hv. rewrite Hv. reflexivity.
  - intros Hvs. rewrite map_fix by assumption. reflexivity.
  - intros Hall. apply Forall_app in Hall as [Hshell Hholes].
    apply Forall_concat in Hholes.
    rewrite map_fix by assumption. f_equal.
    apply map_fix. eapply Forall_impl; [exact Hholes|].
    intros ring Hring. apply map_fix. exact Hring.
Qed.

Lemma py_div_nonzero a b :
  float_eqb b (FNum 0) = false → py_div a b = Ok (float_div a b).
Proof. intros Hb. unfold py_div. rewrite Hb. reflexivity. Qed.

Lemma pixel_project_coord_eq g x y z :
  float_eqb (g1 g) (FNum 0) = false → float_eqb (g5 g) (FNum 0) = false →
  pixel_project_coord (Ok g) false x y z = Ok (pixel_vertex g (x, y, z)).
Proof.
  intros H1 H5. unfold pixel_project_coord. cbn [mbind result_bind].
  rewrite (py_div_nonzero _ _ H1). cbn [mbind result_bind].
  rewrite (py_div_nonzero _ _ H5). reflexivity.
Qed.

Lemma pixel_coordinates_pointwise `{RasterProxy T} (self : T) g geom :
  geomatrix self = Ok g →
  float_eqb (g1 g) (FNum 0) = false → float_eqb (g5 g) (FNum 0) = false →
  pixel_coordinates self (Geom geom) false
  = Ok (Geom (map_vertices (pixel_vertex g) geom)).
Proof.
  intros Hg H1 H5. unfold pixel_coordinates. rewrite Hg. cbn [transform].
  rewrite (transform_geometry_Ok _ (pixel_vertex g)); [reflexivity|].
  intros [[x y] z]. apply pixel_project_coord_eq; assumption.
Qed.

Lemma map_of_pixel_exact a0 a1 a3 a5 v :
  a1 ≠ 0 → a5 ≠ 0 → exact64 a3 →
  unmaps_exactly a0 a1 a3 a5 v →
  on_vertex (map_project_coord (north_up_transform a0 a1 a3 a5))
    (pixel_vertex (north_up_transform a0 a1 a3 a5) v) = v.
Proof.
  unfold exact64.
  intros H1 H5 H3 (x & y & Hv & Hx & Hy & Hdx & Hqx & Hdy & Hqy).
  destruct v as [[vx vy] z]. cbn in Hv. injection Hv as -> ->.
  unfold exact64 in *.
  unfold pixel_vertex, on_vertex, map_project_coord, north_up_transform.
  cbn [g0 g1 g2 g3 g4 g5 float_sub float_opp float_add].
  round_to (x - a0) Hdx. round_to (y - a3) Hdy. cbn [float_div].
  rewrite Hqx, Hqy. cbn [float_mul].
  round_to (x - a0) Hdx. cbn [float_add].
  round_to x Hx. cbn [float_mul float_add].
  replace (0 * ((y - a3) / a5)) with 0 by (field; assumption).
  rewrite round64_0. cbn [float_add]. round_to x Hx. cbn [float_mul].
  replace (0 * x) with 0 by ring. rewrite round64_0. cbn [float_add].
  round_to a3 H3. round_to (y - a3) Hdy. cbn [float_add].
  round_to y Hy. reflexivity.
Qed.

(** X1: for a geotransform without rotation terms and with both scales
    different from zero, and a geometry whose map coordinates are brought to
    pixels without rounding (the differences [x - g[0]], [y - g[3]] and the
    quotients by [g[1]] and [g[5]] are numbers of binary64),
    [pixel_coordinates] followed by [map_coordinates] gives back the
    geometry. *)
Theorem pixel_then_map_north_up `{RasterProxy T} (self : T) a0 a1 a3 a5 geom :
  geomatrix self = Ok (north_up_transform a0 a1 a3 a5) →
  a1 ≠ 0 → a5 ≠ 0 → exact64 a3 →
  Forall (unmaps_exactly a0 a1 a3 a5) (vertices geom) →
  (pixels ← pixel_coordinates self (Geom geom) false;
   map_coordinates self pixels) = Ok (Geom geom).
Proof.
  intros Hg H1 H5 H3 Hexact.
  rewrite (pixel_coordinates_pointwise self _ geom Hg)
    by (apply float_eqb_nonzero; assumption).
  cbn [mbind result_bind].
  rewrite (map_coordinates_pointwise self _ _ Hg).
  rewrite map_vertices_compose, map_vertices_fix; [reflexivity|].
  eapply Forall_impl; [exact Hexact|].
  intros v Hv. apply map_of_pixel_exact; assumption.
Qed.

Lemma pixel_then_map_north_up_witness :
  (pixels ← pixel_coordinates (sample_dataset north_up float_band)
              (Geom unit_square) false;
   map_coordinates (sample_dataset north_up float_band) pixels)
  = Ok (Geom unit_square).
Proof.
  apply (pixel_then_map_north_up (sample_dataset north_up float_band)
           (Z2Qc 100) (Z2Qc 2) (Z2Qc 50) (Z2Qc (-2)) unit_square).
  - reflexivity.
  - vm_compute. discriminate.
  - vm_compute. discriminate.
  - exact64_compute.
  - maps_exactly_compute.
Defined.

(** With a scale of 49 the quotient is rounded, and the way back misses the
    map coordinate [1] by one unit in the last place. *)
Example pixel_then_map_scale_49 :
  (pixels ← pixel_coordinates
              (sample_dataset
                 (north_up_transform 0 (Z2Qc 49) 0 (Z2Qc (-49))) float_band)
              (Geom (Point (fz 1, fz 1, None))) false;
   map_coordinates
     (sample_dataset (north_up_transform 0 (Z2Qc 49) 0 (Z2Qc (-49))) float_band)
     pixels)
  = Ok (Geom (Point
          (of_binary64 (Z.ldexp (machine_int 9007199254740991) (-53)),
           of_binary64 (Z.ldexp (machine_int 9007199254740991) (-53)),
           None))).
Proof. Qc_compute. Qed.

(** ** Snapping *)

Lemma Z2Qc_canonical z : this (Z2Qc z) = inject_Z z.
Proof.
  unfold Z2Qc. cbn -[Qred]. apply Qred_identity. cbn. apply Z.gcd_1_r.
Qed.

Lemma quot_bounds a b :
  (0 < b)%Z →
  ((0 ≤ a)%Z → (a `quot` b * b ≤ a)%Z ∧ (a < (a `quot` b + 1) * b)%Z)
  ∧ ((a ≤ 0)%Z → ((a `quot` b - 1) * b < a)%Z ∧ (a ≤ a `quot` b * b)%Z).
Proof.
  intros Hb. pose proof (Z.quot_rem' a b) as Hqr.
  set (q := (a `quot` b)%Z) in *. set (r := (a `rem` b)%Z) in *.
  split; intros Ha.
  - assert (Hr : (0 ≤ a `rem` b < b)%Z) by (apply Z.rem_bound_pos; lia).
    fold r in Hr. split; lia.
  - assert (Hr : (0 ≤ (- a) `rem` b < b)%Z) by (apply Z.rem_bound_pos; lia).
    rewrite Z.rem_opp_l in Hr by lia. fold r in Hr. split; lia.
Qed.

Lemma Z2Qc_le (k : Z) (q : Qc) :
  Z2Qc k <= q ↔ (k * Zpos (Qden q) ≤ Qnum q)%Z.
Proof.
  unfold Qcle. rewrite Z2Qc_canonical. unfold Qle. cbn.
  rewrite Z.mul_1_r. reflexivity.
Qed.

Lemma Z2Qc_ge (k : Z) (q : Qc) :
  q <= Z2Qc k ↔ (Qnum q ≤ k * Zpos (Qden q))%Z.
Proof.
  unfold Qcle. rewrite Z2Qc_canonical. unfold Qle. cbn.
  rewrite Z.mul_1_r. reflexivity.
Qed.

Lemma Z2Qc_lt (k : Z) (q : Qc) :
  Z2Qc k < q ↔ (k * Zpos (Qden q) < Qnum q)%Z.
Proof.
  unfold Qclt. rewrite Z2Qc_canonical. unfold Qlt. cbn.
  rewrite Z.mul_1_r. reflexivity.
Qed.

Lemma Z2Qc_gt (k : Z) (q : Qc) :
  q < Z2Qc k ↔ (Qnum q < k * Zpos (Qden q))%Z.
Proof.
  unfold Qclt. rewrite Z2Qc_canonical. unfold Qlt. cbn.
  rewrite Z.mul_1_r. reflexivity.
Qed.

Lemma Qc_zero_is_Z2Qc : (0 : Qc) = Z2Qc 0.
Proof. apply Qc_is_canon. reflexivity. Qed.

(** [int] rounds a float that is a number towards zero. *)
Lemma py_int_truncation (q : Qc) :
  ∃ k, py_int (FNum q) = Ok k ∧ truncation q k.
Proof.
  eexists. split; [reflexivity|].
  unfold truncation.
  destruct (quot_bounds (Qnum q) (Zpos (Qden q))) as [Hpos Hneg]; [lia|].
  rewrite !Qc_zero_is_Z2Qc.
  rewrite !Z2Qc_le, !Z2Qc_ge, !Z2Qc_gt, !Z2Qc_lt.
  split; intros Hq.
  - apply Hpos. lia.
  - apply Hneg. lia.
Qed.

Lemma truncation_near_zero (q : Qc) (k : Z) :
  truncation q k → Z2Qc (-1) < q → q < Z2Qc 1 → k = 0%Z.
Proof.
  unfold truncation. rewrite !Qc_zero_is_Z2Qc.
  rewrite !Z2Qc_le, !Z2Qc_ge, !Z2Qc_gt, !Z2Qc_lt.
  intros [Hpos Hneg] Hlo Hhi.
  destruct (Z.le_ge_cases 0 (Qnum q)) as [Hq|Hq].
  - specialize (Hpos ltac:(lia)). nia.
  - specialize (Hneg ltac:(lia)). nia.
Qed.

Lemma pixel_project_coord_snap_eq g x y z :
  float_eqb (g1 g) (FNum 0) = false → float_eqb (g5 g) (FNum 0) = false →
  pixel_project_coord (Ok g) true x y z =
    (col ← py_int (float_div (float_sub x (g0 g)) (g1 g));
     row ← py_int (float_div (float_sub y (g3 g)) (g5 g));
     Ok (float_of_int col, float_of_int row, z)).
Proof.
  intros H1 H5. unfold pixel_project_coord. cbn [mbind result_bind].
  rewrite (py_div_nonzero _ _ H1). cbn [mbind result_bind].
  rewrite (py_div_nonzero _ _ H5). reflexivity.
Qed.

(** X4: with [snap=True] (and both scales different from zero)
    [pixel_coordinates] converts the two floats that it computes without
    [snap] with [int].  Where both are numbers the vertex gets integer
    coordinates, those floats rounded towards zero: a vertex whose float
    column, or row, is between -1 and 1 is given the column, or the row, 0.
    A column that is an infinity raises [OverflowError], one that is NaN
    raises [ValueError]. *)
Theorem pixel_project_coord_snap g x y z :
  float_eqb (g1 g) (FNum 0) = false → float_eqb (g5 g) (FNum 0) = false →
  ∃ px py,
    pixel_project_coord (Ok g) false x y z = Ok (px, py, z)
    ∧ pixel_project_coord (Ok g) true x y z =
        (col ← py_int px; row ← py_int py;
         Ok (float_of_int col, float_of_int row, z))
    ∧ (∀ p q, px = FNum p → py = FNum q →
         ∃ col row : Z,
           pixel_project_coord (Ok g) true x y z
           = Ok (float_of_int col, float_of_int row, z)
           ∧ truncation p col ∧ truncation q row
           ∧ (Z2Qc (-1) < p → p < Z2Qc 1 → col = 0%Z)
           ∧ (Z2Qc (-1) < q → q < Z2Qc 1 → row = 0%Z))
    ∧ (∀ s, px = FInf s →
         pixel_project_coord (Ok g) true x y z = Raise OverflowError)
    ∧ (px = FNaN → pixel_project_coord (Ok g) true x y z = Raise ValueError).
Proof.
  intros H1 H5. eexists _, _.
  split; [apply pixel_project_coord_eq; assumption|].
  rewrite (pixel_project_coord_snap_eq g x y z H1 H5).
  split; [reflexivity|]. split; [|split].
  - intros p q -> ->.
    destruct (py_int_truncation p) as (col & Hcol & Hp).
    destruct (py_int_truncation q) as (row & Hrow & Hq).
    exists col, row. rewrite Hcol, Hrow.
    split; [reflexivity|]. split; [exact Hp|]. split; [exact Hq|].
    split; apply truncation_near_zero; assumption.
  - intros s ->. reflexivity.
  - intros ->. reflexivity.
Qed.

Lemma pixel_project_coord_snap_witness :
  ∃ col row : Z,
    pixel_project_coord (Ok north_up) true (fz 99) (fz 47) None
    = Ok (float_of_int col, float_of_int row, None)
    ∧ col = 0%Z
    ∧ truncation (Q2Qc (3 # 2)) row.
Proof.
  destruct (pixel_project_coord_snap north_up (fz 99) (fz 47) None)
    as (px & py & Hfloat & _ & Hsnap & _).
  - reflexivity.
  - reflexivity.
  - assert (Hpx : px = FNum (Q2Qc (-1 # 2)) ∧ py = FNum (Q2Qc (3 # 2))).
    { assert (Hval : pixel_project_coord (Ok north_up) false (fz 99) (fz 47) None
                     = Ok (FNum (Q2Qc (-1 # 2)), FNum (Q2Qc (3 # 2)), None))
        by Qc_compute.
      rewrite Hval in Hfloat. injection Hfloat as <- <-. split; reflexivity. }
    destruct Hpx as [Hpx Hpy].
    destruct (Hsnap _ _ Hpx Hpy) as (col & row & Hsnapped & _ & Hrow & Hcol & _).
    exists col, row. split; [exact Hsnapped|]. split; [|exact Hrow].
    apply Hcol; reflexivity.
Defined.

(** [int] is applied to the float quotient: on pixels of a tenth the map
    vertex [(1, -1)] is the pixel [(10, 10)], where the quotient of the
    rationals [1] and [0.1] (the float [0.1] is greater than a tenth) is
    below 10. *)
Example pixel_project_coord_snap_tenth :
  pixel_project_coord
    (Ok (GeoTransform (fz 0) (decimal 1 10) (fz 0)
           (fz 0) (fz 0) (float_opp (decimal 1 10))))
    true (fz 1) (fz (-1)) None
  = Ok (fz 10, fz 10, None).
Proof. Qc_compute. Qed.

(** ** What the transforms keep, and when they raise *)

Lemma mapM_heights (f : vertex → result vertex) (l k : list vertex) :
  (∀ v v', f v = Ok v' → v'.2 = v.2) →
  mapM f l = Ok k → map snd k = map snd l.
Proof.
  intros Hf. revert k. induction l as [|v l IH]; intros k; cbn.
  - intros [= <-]. reflexivity.
  - destruct (f v) as [v'|e] eqn:Hv; cbn; [|discriminate].
    destruct (mapM f l) as [k'|e]; cbn; [|discriminate].
    intros [= <-]. cbn. f_equal; [exact (Hf v v' Hv)|exact (IH k' eq_refl)].
Qed.

Lemma mapM_rings_heights (f : vertex → result vertex)
    (ls ks : list (list vertex)) :
  (∀ v v', f v = Ok v' → v'.2 = v.2) →
  mapM (mapM f) ls = Ok ks → map snd (concat ks) = map snd (concat ls).
Proof.
  intros Hf. revert ks. induction ls as [|l ls IH]; intros ks; cbn.
  - intros [= <-]. reflexivity.
  - destruct (mapM f l) as [k|e] eqn:Hl; cbn; [|discriminate].
    destruct (mapM (mapM f) ls) as [ks'|e]; cbn; [|discriminate].
    intros [= <-]. cbn. rewrite !List.map_app.
    f_equal; [exact (mapM_heights f l k Hf Hl)|exact (IH ks' eq_refl)].
Qed.

Lemma transform_geometry_heights func geom geom' :
  (∀ v v', apply_coord func v = Ok v' → v'.2 = v.2) →
  transform_geometry func geom = Ok geom' →
  heights geom' = heights geom.
Proof.
  intros Hf. unfold heights. destruct geom as [v|vs|shell holes]; cbn.
  - destruct (apply_coord func v) as [v'|e] eqn:Hv; cbn; [|discriminate].
    intros [= <-]. cbn. rewrite (Hf v v' Hv). reflexivity.
  - destruct (mapM (apply_coord func) vs) as [vs'|e] eqn:Hvs; cbn;
      [|discriminate].
    intros [= <-]. cbn. apply (mapM_heights _ _ _ Hf Hvs).
  - destruct (mapM (apply_coord func) shell) as [shell'|e] eqn:Hs; cbn;
      [|discriminate].
    destruct (mapM (mapM (apply_coord func)) holes) as [holes'|e] eqn:Hh; cbn;
      [|discriminate].
    intros [= <-]. cbn. rewrite !List.map_app.
    f_equal; [exact (mapM_heights _ _ _ Hf Hs)
             |exact (mapM_rings_heights _ _ _ Hf Hh)].
Qed.

Lemma pixel_project_coord_height geomatrix snap v v' :
  apply_coord (pixel_project_coord geomatrix snap) v = Ok v' → v'.2 = v.2.
Proof.
  destruct v as [[x y] z]. unfold apply_coord, pixel_project_coord.
  destruct geomatrix as [g|e]; cbn [mbind result_bind]; [|discriminate].
  destruct (py_div (float_sub x (g0 g)) (g1 g)) as [px|e];
    cbn [mbind result_bind]; [|discriminate].
  destruct (py_div (float_sub y (g3 g)) (g5 g)) as [py|e];
    cbn [mbind result_bind]; [|discriminate].
  destruct snap; [|intros [= <-]; reflexivity].
  destruct (py_int px) as [col|e]; cbn [mbind result_bind]; [|discriminate].
  destruct (py_int py) as [row|e]; cbn [mbind result_bind]; [|discriminate].
  intros [= <-]. reflexivity.
Qed.

Lemma map_project_coord_height g v v' :
  apply_coord (λ x y z, Ok (map_project_coord g x y z)) v = Ok v' → v'.2 = v.2.
Proof.
  destruct v as [[x y] z]. cbn [apply_coord]. unfold map_project_coord.
  intros Hv. injection Hv as <-. reflexivity.
Qed.

(** X5: [pixel_coordinates] and [map_coordinates] give a geometry with as
    many vertices as the one they are given, and each vertex keeps its [z]
    (or keeps having none). *)
Theorem transforms_keep_heights `{RasterProxy T} (self : T) geom geom' snap :
  (pixel_coordinates self (Geom geom) snap = Ok (Geom geom') →
     heights geom' = heights geom
     ∧ length (vertices geom') = length (vertices geom))
  ∧ (map_coordinates self (Geom geom) = Ok (Geom geom') →
     heights geom' = heights geom
     ∧ length (vertices geom') = length (vertices geom)).
Proof.
  assert (Hlen : ∀ a b, heights a = heights b →
                        length (vertices a) = length (vertices b)).
  { intros a b Hab. apply (f_equal length) in Hab. unfold heights in Hab.
    rewrite !length_map in Hab. exact Hab. }
  split.
  - unfold pixel_coordinates. cbn [transform].
    destruct (transform_geometry _ geom) as [out|e] eqn:Hout; cbn;
      [|discriminate].
    intros [= <-].
    assert (Hh : heights out = heights geom).
    { apply (transform_geometry_heights _ _ _ (pixel_project_coord_height _ _) Hout). }
    split; [exact Hh|apply Hlen, Hh].
  - unfold map_coordinates. destruct (geomatrix self) as [g|e]; cbn;
      [|discriminate].
    destruct (transform_geometry _ geom) as [out|e] eqn:Hout; cbn;
      [|discriminate].
    intros [= <-].
    assert (Hh : heights out = heights geom).
    { apply (transform_geometry_heights _ _ _ (map_project_coord_height g) Hout). }
    split; [exact Hh|apply Hlen, Hh].
Qed.

Lemma transforms_keep_heights_witness :
  map_coordinates (sample_dataset north_up float_band)
    (Geom (LineString [(fz 1, fz 1, Some (fz 1)); (fz 2, fz 2, None)]))
  = Ok (Geom (LineString [(fz 102, fz 48, Some (fz 1));
                          (fz 104, fz 46, None)]))
  ∧ heights (LineString [(fz 102, fz 48, Some (fz 1));
                         (fz 104, fz 46, None)])
    = heights (LineString [(fz 1, fz 1, Some (fz 1)); (fz 2, fz 2, None)]).
Proof.
  assert (Hmap :
    map_coordinates (sample_dataset north_up float_band)
      (Geom (LineString [(fz 1, fz 1, Some (fz 1)); (fz 2, fz 2, None)]))
    = Ok (Geom (LineString [(fz 102, fz 48, Some (fz 1));
                            (fz 104, fz 46, None)]))) by Qc_compute.
  split; [exact Hmap|].
  apply (proj2 (transforms_keep_heights (sample_dataset north_up float_band)
                  _ _ false) Hmap).
Defined.

Lemma mapM_Raise {A B} (f : A → result B) (l : list A) e :
  mapM f l = Raise e → ∃ x, f x = Raise e.
Proof.
  induction l as [|x l IH]; cbn; [discriminate|].
  destruct (f x) as [y|e'] eqn:Hx; cbn.
  - destruct (mapM f l) as [k|e'']; cbn; [discriminate|].
    intros [= ->]. apply IH. reflexivity.
  - intros [= ->]. exists x. exact Hx.
Qed.

(** What a transform raises, its function raises at some vertex. *)
Lemma transform_geometry_Raise func geom e :
  transform_geometry func geom = Raise e →
  ∃ v, apply_coord func v = Raise e.
Proof.
  destruct geom as [v|vs|shell holes]; cbn.
  - destruct (apply_coord func v) as [v'|e'] eqn:Hv; cbn; [discriminate|].
    intros [= ->]. exists v. exact Hv.
  - destruct (mapM (apply_coord func) vs) as [vs'|e'] eqn:Hvs; cbn;
      [discriminate|].
    intros [= ->]. apply (mapM_Raise _ _ _ Hvs).
  - destruct (mapM (apply_coord func) shell) as [shell'|e'] eqn:Hs; cbn.
    + destruct (mapM (mapM (apply_coord func)) holes) as [holes'|e''] eqn:Hh;
        cbn; [discriminate|].
      intros [= ->]. destruct (mapM_Raise _ _ _ Hh) as (ring & Hring).
      apply (mapM_Raise _ _ _ Hring).
    + intros [= ->]. apply (mapM_Raise _ _ _ Hs).
Qed.

Lemma py_int_Raise a e :
  py_int a = Raise e → e = OverflowError ∨ e = ValueError.
Proof.
  destruct a as [q|s|]; cbn; [discriminate| |]; intros [= <-]; auto.
Qed.

(** X6: on a raster whose geotransform is [g], [pixel_coordinates] raises
    [ZeroDivisionError] for a point exactly when [g[1]] or [g[5]] is zero;
    when neither is, it returns a geometry for every geometry without
    [snap], and with [snap] it raises nothing but the [OverflowError] and
    the [ValueError] of [int]. *)
Theorem pixel_coordinates_raises_iff `{RasterProxy T} (self : T) g snap :
  geomatrix self = Ok g →
  (∀ v, pixel_coordinates self (Geom (Point v)) snap = Raise ZeroDivisionError
        ↔ float_eqb (g1 g) (FNum 0) = true ∨ float_eqb (g5 g) (FNum 0) = true)
  ∧ (float_eqb (g1 g) (FNum 0) = false → float_eqb (g5 g) (FNum 0) = false →
     ∀ geom,
       (∃ geom', pixel_coordinates self (Geom geom) false = Ok (Geom geom'))
       ∧ ∀ e, pixel_coordinates self (Geom geom) true = Raise e →
              e = OverflowError ∨ e = ValueError).
Proof.
  intros Hg. split.
  - intros [[x y] z]. unfold pixel_coordinates. rewrite Hg.
    cbn [transform transform_geometry apply_coord].
    destruct (float_eqb (g1 g) (FNum 0)) eqn:H1.
    { unfold pixel_project_coord, py_div. cbn [mbind result_bind].
      rewrite H1. split; [left; reflexivity|reflexivity]. }
    destruct (float_eqb (g5 g) (FNum 0)) eqn:H5.
    { unfold pixel_project_coord, py_div. cbn [mbind result_bind].
      rewrite H1, H5. split; [right; reflexivity|reflexivity]. }
    split; [|intros [?|?]; discriminate].
    destruct snap.
    + rewrite (pixel_project_coord_snap_eq g x y z H1 H5).
      destruct (py_int (float_div (float_sub x (g0 g)) (g1 g)))
        as [col|e] eqn:Hcol; cbn.
      * destruct (py_int (float_div (float_sub y (g3 g)) (g5 g)))
          as [row|e] eqn:Hrow; cbn; [discriminate|].
        destruct (py_int_Raise _ _ Hrow) as [-> | ->]; discriminate.
      * destruct (py_int_Raise _ _ Hcol) as [-> | ->]; discriminate.
    + rewrite pixel_project_coord_eq by assumption. discriminate.
  - intros H1 H5 geom. split.
    + eexists. exact (pixel_coordinates_pointwise self g geom Hg H1 H5).
    + intros e. unfold pixel_coordinates. rewrite Hg. cbn [transform].
      destruct (transform_geometry _ geom) as [out|e'] eqn:Hout; cbn;
        [discriminate|].
      intros [= ->]. destruct (transform_geometry_Raise _ _ _ Hout)
        as ([[x y] z] & Hv).
      cbn [apply_coord] in Hv.
      rewrite (pixel_project_coord_snap_eq g x y z H1 H5) in Hv.
      destruct (py_int (float_div (float_sub x (g0 g)) (g1 g)))
        as [col|e1] eqn:Hcol; cbn in Hv.
      * destruct (py_int (float_div (float_sub y (g3 g)) (g5 g)))
          as [row|e2] eqn:Hrow; cbn in Hv; [discriminate|].
        injection Hv as ->. apply (py_int_Raise _ _ Hrow).
      * injection Hv as ->. apply (py_int_Raise _ _ Hcol).
Qed.

Lemma pixel_coordinates_raises_iff_witness :
  pixel_coordinates (sample_dataset flat float_band)
    (Geom (Point (fz 1, fz 1, None))) true = Raise ZeroDivisionError
  ∧ ∃ geom', pixel_coordinates (sample_dataset north_up float_band)
               (Geom unit_square) false = Ok (Geom geom').
Proof.
  split.
  - destruct (pixel_coordinates_raises_iff
                (sample_dataset flat float_band) flat true) as [Hiff _];
      [reflexivity|].
    apply Hiff. left. reflexivity.
  - destruct (pixel_coordinates_raises_iff
                (sample_dataset north_up float_band) north_up true)
      as [_ Hreturns]; [reflexivity|].
    apply Hreturns; reflexivity.
Defined.

(** A column that overflows: on pixels of a half the map vertex
    [(2^1023, 0)] has the float column infinity, which [int] refuses. *)
Example pixel_coordinates_snap_overflow :
  pixel_coordinates
    (sample_dataset
       (GeoTransform (fz 0) (decimal 1 2) (fz 0) (fz 0) (fz 0) (fz 1))
       float_band)
    (Geom (Point (fz (2 ^ 1023), fz 0, None))) true
  = Raise OverflowError.
Proof. vm_compute. reflexivity. Qed.

(** X7: [pixel_coordinates] reads the geotransform once for every vertex,
    [map_coordinates] once before it looks at the geometry: a geometry
    without vertices goes through [pixel_coordinates] whatever the state of
    the raster, while [map_coordinates] raises what reading the geotransform
    raises, for every geometry; so does [pixel_coordinates] for a point. *)
Theorem geomatrix_errors `{RasterProxy T} (self : T) snap :
  pixel_coordinates self (Geom (LineString [])) snap = Ok (Geom (LineString []))
  ∧ pixel_coordinates self (Geom (Polygon [] [])) snap = Ok (Geom (Polygon [] []))
  ∧ (∀ e geom, geomatrix self = Raise e → map_coordinates self geom = Raise e)
  ∧ (∀ e v, geomatrix self = Raise e →
       pixel_coordinates self (Geom (Point v)) snap = Raise e).
Proof.
  split; [reflexivity|split; [reflexivity|split]].
  - intros e geom He. unfold map_coordinates. rewrite He. reflexivity.
  - intros e [[x y] z] He. unfold pixel_coordinates. rewrite He. reflexivity.
Qed.

Lemma geomatrix_errors_witness :
  map_coordinates (close (sample_dataset north_up float_band)).1
    (Geom (LineString [])) = Raise AttributeError
  ∧ pixel_coordinates (close (sample_dataset north_up float_band)).1
      (Geom (Point (fz 1, fz 1, None))) false = Raise AttributeError.
Proof.
  destruct (geomatrix_errors (close (sample_dataset north_up float_band)).1 false)
    as (_ & _ & Hmap & Hpixel).
  split; [apply Hmap|apply Hpixel]; reflexivity.
Defined.

(** ** More on the map coordinates *)

Lemma float_mul_zero_l p : float_mul (FNum 0) (FNum p) = FNum 0.
Proof.
  cbn [float_mul]. replace (0 * p) with 0 by ring. apply round64_0.
Qed.

(** X2: the [y] that [map_coordinates] gives a vertex is the [y] of the
    affine map at the new [x], not at the [x] of the vertex; the two are the
    same when [g[4]] is zero and both the [x] of the vertex and the new [x]
    are numbers. *)
Theorem map_project_coord_deviation g x y z :
  map_project_coord g x y z =
    ((affine_spec g x y).1, (affine_spec g (affine_spec g x y).1 y).2, z)
  ∧ (g4 g = FNum 0 →
     ∀ p q, x = FNum p → (affine_spec g x y).1 = FNum q →
            map_project_coord g x y z
            = ((affine_spec g x y).1, (affine_spec g x y).2, z)).
Proof.
  split; [reflexivity|].
  intros H4 p q -> Hq. unfold map_project_coord.
  change (float_add (float_add (g0 g) (float_mul (g1 g) (FNum p)))
            (float_mul (g2 g) y))
    with (affine_spec g (FNum p) y).1.
  rewrite Hq. unfold affine_spec. cbn [snd]. rewrite H4, !float_mul_zero_l.
  reflexivity.
Qed.

Lemma map_project_coord_deviation_witness :
  map_project_coord north_up (fz 1) (fz 1) None
  = ((affine_spec north_up (fz 1) (fz 1)).1,
     (affine_spec north_up (fz 1) (fz 1)).2, None).
Proof.
  apply (proj2 (map_project_coord_deviation north_up (fz 1) (fz 1) None)
           eq_refl (Z2Qc 1) (Z2Qc 102)).
  - reflexivity.
  - Qc_compute.
Defined.

(** ** A closed dataset *)

Lemma gdal_handle_closed (ds : object) :
  gdal_handle (close ds).1 = Raise AttributeError.
Proof. unfold gdal_handle. rewrite close_run. cbn [fst]. rewrite lookup_insert_eq. reflexivity. Qed.

Lemma geomatrix_closed (ds : object) :
  geomatrix (close ds).1 = Raise AttributeError.
Proof.
  unfold geomatrix, proxy_dataset, Dataset_proxy.
  destruct ((close ds).1 !! "__dataset__") as [[]|]; try reflexivity.
  unfold mbind, result_bind. rewrite gdal_handle_closed. reflexivity.
Qed.

(** X8: once [close] has run, every method that reads the raster raises
    [AttributeError]: [geomatrix], [get_band], [map_coordinates],
    [pixel_coordinates] on a point, [nodata], [dtype], [len] and [profile];
    [transformation], which reads only [crs], answers as before, and a second
    [close] changes nothing. *)
Theorem use_after_close (ds : object) :
  geomatrix (close ds).1 = Raise AttributeError
  ∧ (∀ index, get_band (close ds).1 index = Raise AttributeError)
  ∧ (∀ geom, map_coordinates (close ds).1 geom = Raise AttributeError)
  ∧ (∀ v snap, pixel_coordinates (close ds).1 (Geom (Point v)) snap
               = Raise AttributeError)
  ∧ dataset_nodata (close ds).1 = Raise AttributeError
  ∧ (∀ T (R : Raster T),
       dataset_dtype R (close ds).1 = Raise AttributeError
       ∧ dataset_len R (close ds).1 = Raise AttributeError
       ∧ (∀ x y bands window,
            profile R (close ds).1 x y bands window = Raise AttributeError)
       ∧ ∀ crs, transformation R (close ds).1 crs = transformation R ds crs)
  ∧ (close (close ds).1).1 = (close ds).1.
Proof.
  assert (Hband : ∀ index, get_band (close ds).1 index = Raise AttributeError).
  { intros index. unfold get_band, Band_init.
    rewrite gdal_handle_closed. reflexivity. }
  split; [apply geomatrix_closed|].
  split; [exact Hband|].
  split.
  { intros geom. unfold map_coordinates. rewrite geomatrix_closed. reflexivity. }
  split.
  { intros [[x y] z] snap. unfold pixel_coordinates.
    rewrite geomatrix_closed. reflexivity. }
  split.
  { unfold dataset_nodata. rewrite Hband. reflexivity. }
  split.
  - intros T R.
    assert (Hlen : dataset_len R (close ds).1 = Raise AttributeError).
    { unfold dataset_len. rewrite gdal_handle_closed. reflexivity. }
    split; [unfold dataset_dtype; rewrite Hband; reflexivity|].
    split; [exact Hlen|]. split.
    + intros x y bands window. unfold profile.
      destruct bands as [bands|]; [|rewrite Hlen; reflexivity].
      cbn -[close gdal_handle]. rewrite gdal_handle_closed. reflexivity.
    + intros crs. unfold transformation, getattr. cbn [snd].
      rewrite close_keeps by discriminate. reflexivity.
  - rewrite !close_run. cbn [fst]. apply insert_insert_eq.
Qed.

(** ** Bands *)

(** X9: [get_band] returns a band exactly when the dataset holds an open
    raster that has a band at [index + 1] and has a [shape]; the band then
    carries the dataset, the index, the shape of the dataset and the no-data
    value that GDAL declares for it. *)
Theorem get_band_returns_iff (ds : object) index band :
  get_band ds index = Ok band
  ↔ ∃ h gdal shape,
      ds !! "__gdal__" = Some (PyGdal h)
      ∧ GetRasterBand h (index + 1) = Ok (Some gdal)
      ∧ ds !! "shape" = Some shape
      ∧ band = {| band_dataset := ds; band_index := index; band_gdal := gdal;
                  band_shape := shape; band_nodata := GetNoDataValue gdal |}.
Proof.
  split.
  - unfold get_band, Band_init, gdal_handle.
    destruct (ds !! "__gdal__") as [[| | | | |h| |]|] eqn:Hgdal; cbn;
      try discriminate.
    destruct (GetRasterBand h (index + 1)) as [[gdal|]|e] eqn:Hband; cbn;
      destruct (ds !! "shape") as [shape|] eqn:Hshape; cbn; try discriminate.
    intros [= <-]. exists h, gdal, shape. repeat split; assumption.
  - intros (h & gdal & shape & Hgdal & Hband & Hshape & ->).
    apply (Band_init_returns ds index h shape gdal Hgdal Hshape Hband).
Qed.

Lemma get_band_returns_iff_witness :
  get_band (sample_dataset north_up int_band) 0
  = Ok (sample_band north_up int_band).
Proof.
  apply (proj2 (get_band_returns_iff (sample_dataset north_up int_band) 0
                  (sample_band north_up int_band))).
  exists (sample_gdal north_up int_band (Ok "PROJCS")), int_band,
    (PyShape (2, 3)%Z).
  repeat split; reflexivity.
Defined.

(** X10: on an open raster [get_band] raises [AttributeError] when
    [GetRasterBand] answers [None] for [index + 1] or when the dataset has no
    [shape], and it raises the exception of [GetRasterBand] when that
    raises. *)
Theorem get_band_raises (ds : object) index h :
  ds !! "__gdal__" = Some (PyGdal h) →
  (GetRasterBand h (index + 1) = Ok None →
     get_band ds index = Raise AttributeError)
  ∧ (∀ e, GetRasterBand h (index + 1) = Raise e → get_band ds index = Raise e)
  ∧ (ds !! "shape" = None →
     ∀ gdal, GetRasterBand h (index + 1) = Ok gdal →
             get_band ds index = Raise AttributeError).
Proof.
  intros Hgdal. unfold get_band, Band_init, gdal_handle. rewrite Hgdal. cbn.
  split; [|split].
  - intros ->. cbn. destruct (ds !! "shape"); reflexivity.
  - intros e ->. reflexivity.
  - intros Hshape gdal ->. cbn. rewrite Hshape. reflexivity.
Qed.

Lemma get_band_raises_witness :
  get_band (sample_dataset north_up float_band) 5 = Raise RuntimeError.
Proof.
  apply (proj1 (proj2 (get_band_raises (sample_dataset north_up float_band) 5
                         (sample_gdal north_up float_band (Ok "PROJCS"))
                         eq_refl))).
  reflexivity.
Defined.

(** ** The dataset that the constructor builds *)

Ltac run_raise :=
  erewrite run_bind_raise; [reflexivity|apply run_call_raise; eassumption].

Ltac unset_attr :=
  unfold before_projection;
  repeat (rewrite lookup_insert_ne by discriminate);
  apply lookup_empty.

Tactic Notation "stops_after" integer(n) :=
  right; eexists _, _;
  split;
  [ unfold projection_block;
    do n (erewrite run_bind; [|run_statement]); run_raise
  | split; unset_attr ].

(** The [try] statement either runs to its end, and then every call has
    succeeded, or it stops with [gcs] and [projected] not assigned. *)
Lemma projection_block_cases (L : Libs) h :
  (∃ wkt osr osr' crs gcs,
     projection_block L (before_projection h) =
       (<["projected" := PyBool true]>
          (<["gcs" := PyCrs gcs]>
             (<["crs" := PyCrs crs]>
                (<["__osr__" := PyOsr osr']>
                   (<["__osr__" := PyOsr osr]>
                      (<["wkt" := PyStr wkt]> (before_projection h)))))),
        Ok ()))
  ∨ (∃ self' e,
       projection_block L (before_projection h) = (self', Raise e)
       ∧ self' !! "gcs" = None ∧ self' !! "projected" = None).
Proof.
  destruct (GetProjection h) as [wkt|e] eqn:Hwkt; [|stops_after 1].
  destruct (osr_SpatialReference L) as [osr|e] eqn:Hosr; [|stops_after 3].
  destruct (ImportFromWkt osr wkt) as [osr'|e] eqn:Himport; [|stops_after 7].
  destruct (ExportToProj4 osr') as [proj4|e] eqn:Hproj; [|stops_after 10].
  destruct (from_string L proj4) as [crs|e] eqn:Hcrs; [|stops_after 11].
  destruct (CloneGeogCS osr') as [[geogcs|]|e] eqn:Hgeog; [| |stops_after 14].
  2: { right. eexists _, _. split; [|split].
       - apply (projection_block_no_geogcs L h wkt osr osr' proj4 crs);
           assumption.
       - unset_attr.
       - unset_attr. }
  destruct (ExportToProj4 geogcs) as [proj4'|e] eqn:Hproj'.
  2: { right. eexists _, e. split; [|split].
       - unfold projection_block.
         do 15 (erewrite run_bind; [|run_statement]).
         erewrite run_bind_raise; [reflexivity|].
         apply run_call_raise. exact Hproj'.
       - unset_attr.
       - unset_attr. }
  destruct (from_string L proj4') as [gcs|e] eqn:Hgcs.
  2: { right. eexists _, e. split; [|split].
       - unfold projection_block.
         do 15 (erewrite run_bind; [|run_statement]).
         erewrite run_bind; [|apply run_call; exact Hproj'].
         run_raise.
       - unset_attr.
       - unset_attr. }
  left. exists wkt, osr, osr', crs, gcs.
  apply (projection_block_Ok L h wkt osr osr' proj4 crs geogcs proj4' gcs);
    assumption.
Qed.

Lemma Dataset_Ok_opened (L : Libs) filename ds :
  Dataset L filename = Ok ds → ∃ h, G_Open L filename = Ok h.
Proof.
  destruct (G_Open L filename) as [h|e] eqn:Hopen; [eauto|].
  rewrite (Dataset_raises L filename e Hopen). discriminate.
Qed.

Lemma Dataset_attributes (L : Libs) filename ds :
  Dataset L filename = Ok ds →
  ∃ h b,
    G_Open L filename = Ok h
    ∧ ds !! "__gdal__" = Some (PyGdal h)
    ∧ proxy_dataset ds = Ok ds
    ∧ geomatrix ds = Ok (GetGeoTransform h)
    ∧ ds !! "projected" = Some (PyBool b)
    ∧ (b = true ↔ is_Some (ds !! "gcs"))
    ∧ (b = true → is_Some (ds !! "wkt") ∧ is_Some (ds !! "crs")).
Proof.
  intros Hds. destruct (Dataset_Ok_opened L filename ds Hds) as [h Hopen].
  assert (Hgdal : ds !! "__gdal__" = Some (PyGdal h)).
  { rewrite (Dataset_keeps L filename h ds "__gdal__");
      [|not_assigned|assumption|assumption].
    unfold before_projection. rewrite lookup_insert_ne by discriminate.
    apply lookup_insert_eq. }
  assert (Hself : ds !! "__dataset__" = Some PySelf).
  { rewrite (Dataset_keeps L filename h ds "__dataset__");
      [|not_assigned|assumption|assumption].
    unfold before_projection. do 2 (rewrite lookup_insert_ne by discriminate).
    apply lookup_insert_eq. }
  assert (Hproxy : proxy_dataset ds = Ok ds).
  { unfold proxy_dataset, Dataset_proxy. rewrite Hself. reflexivity. }
  assert (Hgeo : geomatrix ds = Ok (GetGeoTransform h)).
  { unfold geomatrix. rewrite Hproxy. unfold mbind, result_bind, gdal_handle.
    rewrite Hgdal. reflexivity. }
  exists h.
  rewrite (Dataset_run L filename h Hopen) in Hds.
  destruct (projection_block_cases L h)
    as [(wkt & osr & osr' & crs & gcs & Hrun)|(self' & e & Hrun & Hgcs & Hproj)];
    rewrite Hrun in Hds.
  - injection Hds as <-. exists true.
    repeat (split; [assumption|]). split; [apply lookup_insert_eq|].
    assert (Hset : is_Some
      (<["projected" := PyBool true]>
         (<["gcs" := PyCrs gcs]>
            (<["crs" := PyCrs crs]>
               (<["__osr__" := PyOsr osr']>
                  (<["__osr__" := PyOsr osr]>
                     (<["wkt" := PyStr wkt]> (before_projection h))))))
       !! "gcs")).
    { rewrite lookup_insert_ne by discriminate.
      rewrite lookup_insert_eq. eauto. }
    split; [split; [intros _; exact Hset|reflexivity]|].
    intros _. split.
    + do 5 (rewrite lookup_insert_ne by discriminate).
      rewrite lookup_insert_eq. eauto.
    + do 2 (rewrite lookup_insert_ne by discriminate).
      rewrite lookup_insert_eq. eauto.
  - destruct (is_AttributeError e); [|discriminate].
    injection Hds as <-. exists false.
    repeat (split; [assumption|]). split; [apply lookup_insert_eq|].
    split; [|discriminate]. split; [discriminate|].
    rewrite lookup_insert_ne by discriminate. rewrite Hgcs.
    intros [? [=]].
Qed.

(** X11: every dataset that the constructor returns refers to itself as
    [__dataset__], holds the handle that [G.Open] gave and answers its
    geotransform; [projected] is set to a boolean, which is true exactly when
    [gcs] is set, and when it is true [wkt] and [crs] are set as well. *)
Theorem Dataset_invariant (L : Libs) filename ds :
  Dataset L filename = Ok ds →
  ∃ h b,
    G_Open L filename = Ok h
    ∧ ds !! "__gdal__" = Some (PyGdal h)
    ∧ proxy_dataset ds = Ok ds
    ∧ geomatrix ds = Ok (GetGeoTransform h)
    ∧ ds !! "projected" = Some (PyBool b)
    ∧ (b = true ↔ is_Some (ds !! "gcs"))
    ∧ (b = true → is_Some (ds !! "wkt") ∧ is_Some (ds !! "crs")).
Proof. apply Dataset_attributes. Qed.

Lemma Dataset_invariant_witness :
  ∃ h b,
    G_Open local_libs "local.tif" = Ok h
    ∧ geomatrix (<["projected" := PyBool false]>
                   (<["crs" := PyCrs {[ "proj4" := "+proj=utm"%string ]}]>
                      (<["__osr__" := PyOsr (MkSrs (λ _, Raise RuntimeError)
                                               (Ok "+proj=utm") (Ok None))]>
                         (<["wkt" := PyStr "LOCAL_CS"]>
                            (before_projection
                               (sample_gdal north_up float_band
                                  (Ok "LOCAL_CS")))))))
      = Ok (GetGeoTransform h)
    ∧ b = false.
Proof.
  destruct (Dataset_invariant local_libs "local.tif"
              (<["projected" := PyBool false]>
                 (<["crs" := PyCrs {[ "proj4" := "+proj=utm"%string ]}]>
                    (<["__osr__" := PyOsr (MkSrs (λ _, Raise RuntimeError)
                                             (Ok "+proj=utm") (Ok None))]>
                       (<["wkt" := PyStr "LOCAL_CS"]>
                          (before_projection
                             (sample_gdal north_up float_band
                                (Ok "LOCAL_CS"))))))))
    as (h & b & Hopen & _ & _ & Hgeo & Hproj & _).
  - reflexivity.
  - exists h, b. split; [exact Hopen|]. split; [exact Hgeo|].
    vm_compute in Hproj. injection Hproj as <-. reflexivity.
Defined.

Lemma is_AttributeError_true e : is_AttributeError e = true → e = AttributeError.
Proof. destruct e; first [reflexivity|discriminate]. Qed.

(** X12: the constructor raises exactly what [G.Open] raises or what the
    [try] statement raises that is not an [AttributeError]; an
    [AttributeError] leaves it only when [G.Open] raised it. *)
Theorem Dataset_raises_iff (L : Libs) filename e :
  (Dataset L filename = Raise e
   ↔ G_Open L filename = Raise e
     ∨ ∃ h self', G_Open L filename = Ok h
                  ∧ projection_block L (before_projection h) = (self', Raise e)
                  ∧ e ≠ AttributeError)
  ∧ (Dataset L filename = Raise AttributeError →
     G_Open L filename = Raise AttributeError).
Proof.
  assert (Hiff : Dataset L filename = Raise e
   ↔ G_Open L filename = Raise e
     ∨ ∃ h self', G_Open L filename = Ok h
                  ∧ projection_block L (before_projection h) = (self', Raise e)
                  ∧ e ≠ AttributeError).
  { destruct (G_Open L filename) as [h|e'] eqn:Hopen.
    - rewrite (Dataset_run L filename h Hopen).
      destruct (projection_block L (before_projection h)) as [self' [[]|e']]
        eqn:Hrun.
      + split; [discriminate|].
        intros [[=]|(h' & s' & [= <-] & Hrun' & _)].
        rewrite Hrun in Hrun'. discriminate.
      + destruct (is_AttributeError e') eqn:Hattr.
        * apply is_AttributeError_true in Hattr. subst e'.
          split; [discriminate|].
          intros [[=]|(h' & s' & [= <-] & Hrun' & Hne)].
          rewrite Hrun in Hrun'. injection Hrun' as _ <-. contradiction.
        * split.
          -- intros [= <-]. right. exists h, self'.
             split; [reflexivity|]. split; [exact Hrun|].
             intros ->. discriminate.
          -- intros [[=]|(h' & s' & [= <-] & Hrun' & Hne)].
             rewrite Hrun in Hrun'. injection Hrun' as _ <-. reflexivity.
    - rewrite (Dataset_raises L filename e' Hopen). split.
      + intros [= <-]. left. reflexivity.
      + intros [[= <-]|(h & s' & [=] & _)]. reflexivity. }
  split; [exact Hiff|].
  intros Hds. destruct (G_Open L filename) as [h|e'] eqn:Hopen.
  - rewrite (Dataset_run L filename h Hopen) in Hds.
    destruct (projection_block L (before_projection h)) as [self' [[]|e']];
      [discriminate|].
    destruct e'; cbn in Hds; discriminate.
  - rewrite (Dataset_raises L filename e' Hopen) in Hds.
    injection Hds as ->. reflexivity.
Qed.

Lemma Dataset_raises_iff_witness :
  Dataset broken_libs "broken.tif" = Raise RuntimeError.
Proof.
  apply (proj1 (Dataset_raises_iff broken_libs "broken.tif" RuntimeError)).
  right.
  exists (sample_gdal north_up float_band (Raise RuntimeError)),
    (before_projection (sample_gdal north_up float_band (Raise RuntimeError))).
  split; [reflexivity|]. split; [reflexivity|discriminate].
Defined.

(** ** Dataset.transformation *)

(** X13: on a dataset built with [projected] true, [transformation] calls
    [Transformation] with the [crs] of the dataset and returns what it
    returns; on a dataset whose projection could not be read at all
    ([GetProjection] raised [AttributeError]) it raises [AttributeError]. *)
Theorem transformation_needs_crs {T} (R : Raster T) (L : Libs) filename ds crs :
  Dataset L filename = Ok ds →
  (ds !! "projected" = Some (PyBool true) →
     ∃ self_crs, ds !! "crs" = Some self_crs
                 ∧ transformation R ds crs = Transformation R crs self_crs)
  ∧ (∀ h, G_Open L filename = Ok h →
          GetProjection h = Raise AttributeError →
          ds !! "projected" = Some (PyBool false)
          ∧ transformation R ds crs = Raise AttributeError).
Proof.
  intros Hds. split.
  - intros Hproj.
    destruct (Dataset_attributes L filename ds Hds)
      as (h & b & _ & _ & _ & _ & Hb & _ & Hset).
    rewrite Hproj in Hb. injection Hb as <-.
    destruct (Hset eq_refl) as [_ [self_crs Hcrs]].
    exists self_crs. split; [exact Hcrs|].
    unfold transformation, getattr. cbn [snd]. rewrite Hcrs. reflexivity.
  - intros h Hopen Hwkt. rewrite (Dataset_run L filename h Hopen) in Hds.
    assert (Hrun : projection_block L (before_projection h)
                   = (before_projection h, Raise AttributeError)).
    { unfold projection_block.
      erewrite run_bind; [|run_statement]. run_raise. }
    rewrite Hrun in Hds. cbn in Hds. injection Hds as <-.
    split; [apply lookup_insert_eq|].
    unfold transformation, getattr. cbn [snd].
    rewrite lookup_insert_ne by discriminate.
    assert (Hnone : before_projection h !! "crs" = None) by unset_attr.
    rewrite Hnone. reflexivity.
Qed.

Lemma transformation_needs_crs_witness :
  transformation (sample_raster 1 []) projected_dataset PyNone = Ok ().
Proof.
  destruct (transformation_needs_crs (sample_raster 1 []) projected_libs
              "utm.tif" projected_dataset PyNone eq_refl) as [Hcalls _].
  destruct (Hcalls eq_refl) as (self_crs & _ & ->). reflexivity.
Defined.


(** ** More on Band.get_array *)

(** X14: [get_array] raises an exception exactly when [ReadAsArray] raises
    it: the [ValueError] of the assignment of NaN never leaves it. *)
Theorem get_array_raises_iff (self : Band) nodata e :
  get_array self nodata = Raise e ↔ ReadAsArray (band_gdal self) = Raise e.
Proof.
  unfold get_array. destruct (ReadAsArray (band_gdal self)) as [arr|e']; cbn.
  - split; [|discriminate].
    destruct nodata as [| |x]; [destruct (band_nodata self) as [| |x]| |];
      try discriminate;
      destruct arr as [rows|dtype rows]; cbn; discriminate.
  - split; intros [= <-]; reflexivity.
Qed.

Lemma get_array_raises_iff_witness :
  get_array {| band_dataset := sample_dataset north_up float_band;
               band_index := 0;
               band_gdal := {| GetNoDataValue := NdNone;
                               ReadAsArray := Raise RuntimeError;
                               ReadRaster := λ _ _ _ _, Raise RuntimeError |};
               band_shape := PyShape (2, 3)%Z;
               band_nodata := NdNone |} (NdNum (fz 0))
  = Raise RuntimeError.
Proof. apply get_array_raises_iff. reflexivity. Defined.

Lemma float_at_map (f : pyfloat → pyfloat) rows i j :
  float_at (map (map f) rows) i j = f <$> float_at rows i j.
Proof.
  unfold float_at. rewrite lookup_map.
  destruct (rows !! i) as [row|]; cbn; [|reflexivity].
  apply lookup_map.
Qed.

(** X15: a number given as [nodata] is used whatever the band declares; on
    a float array the result has a value at the places where the array has
    one, and that value is NaN where the element is equal to the number
    converted to the element type of the array, and the element itself
    elsewhere. *)
Theorem get_array_elementwise (self : Band) x dtype rows :
  ReadAsArray (band_gdal self) = Ok (FloatArray dtype rows) →
  ∃ rows',
    get_array self (NdNum x) = Ok (PlainArray (FloatArray dtype rows'))
    ∧ length rows' = length rows
    ∧ ∀ i j, float_at rows' i j
             = (λ a, if float_eqb a (np_cast dtype x) then FNaN else a)
                 <$> float_at rows i j.
Proof.
  intros Hread. eexists. split; [|split].
  - unfold get_array. rewrite Hread. cbn. rewrite zip_with_rows. reflexivity.
  - apply length_map.
  - intros i j. apply float_at_map.
Qed.

Lemma get_array_elementwise_witness :
  (∃ rows',
     get_array (sample_band north_up float_band) (NdNum (fz 1))
     = Ok (PlainArray (FloatArray Float64 rows'))
     ∧ float_at rows' 0 1 = Some FNaN
     ∧ float_at rows' 0 0 = Some (fz 0))
  ∧ (∃ rows',
       get_array (sample_band north_up float32_band) (NdNum (decimal 1 10))
       = Ok (PlainArray (FloatArray Float32 rows'))
       ∧ float_at rows' 0 0 = Some FNaN).
Proof.
  split.
  - destruct (get_array_elementwise (sample_band north_up float_band) (fz 1)
                Float64 [[fz 0; fz 1; FNaN]; [FInf false; fz 0; fz 7]]
                eq_refl) as (rows' & Hget & _ & Hat).
    exists rows'. split; [exact Hget|]. rewrite !Hat. split; reflexivity.
  - destruct (get_array_elementwise (sample_band north_up float32_band)
                (decimal 1 10) Float32 [[round32 (Q2Qc (1 # 10)); fz 1]]
                eq_refl) as (rows' & Hget & _ & Hat).
    exists rows'. split; [exact Hget|]. rewrite !Hat. vm_compute. reflexivity.
Defined.

(** A float outside the range of [float32] is compared as it is. *)
Example np_cast_out_of_range :
  np_cast Float32 (round64 (Z2Qc (10 ^ 300))) = round64 (Z2Qc (10 ^ 300))
  ∧ np_cast Float32 (fz 1) = fz 1
  ∧ np_cast Float64 (decimal 1 10) = decimal 1 10.
Proof. repeat split; Qc_compute. Qed.

Lemma keep_not_nan rows :
  map (map (λ a, if float_eqb a FNaN then FNaN else a)) rows = rows.
Proof.
  apply map_id_ext. intros row. apply map_id_ext. intros a.
  destruct a; reflexivity.
Qed.

(** X16: without a no-data value (none given and none declared), and with
    the float NaN as no-data value, [get_array] returns the array as it was
    read, not masked: NaN is equal to no element. *)
Theorem get_array_leaves_array (self : Band) nodata arr :
  ReadAsArray (band_gdal self) = Ok arr →
  effective_nodata self nodata = NdNone
  ∨ effective_nodata self nodata = NdNum FNaN →
  get_array self nodata = Ok (PlainArray arr).
Proof.
  intros Hread Hnd. unfold get_array. rewrite Hread. cbn.
  fold (effective_nodata self nodata).
  destruct Hnd as [->| ->]; [reflexivity|].
  destruct arr as [rows|dtype rows]; cbn; [reflexivity|].
  rewrite zip_with_rows.
  replace (np_cast dtype FNaN) with FNaN by (destruct dtype; reflexivity).
  rewrite keep_not_nan. reflexivity.
Qed.

Lemma get_array_leaves_array_witness :
  get_array (sample_band north_up float_band) (NdNum FNaN)
  = Ok (PlainArray (FloatArray Float64 [[fz 0; fz 1; FNaN];
                                        [FInf false; fz 0; fz 7]])).
Proof.
  apply (get_array_leaves_array (sample_band north_up float_band) (NdNum FNaN)).
  - reflexivity.
  - right. reflexivity.
Defined.

(** ** More on Band.extract *)

(** X17: for a geometry with an area that is not zero [extract_pixels] is
    [extract_area] of the dataset with the index of the band as the only
    band: neither the strategy nor the array of the band is used.  For a
    point and for a line it is the strategy, applied to [get_array()]. *)
Theorem extract_pixels_by_area (L : Libs) (self : Band) (s : strategy) :
  (∀ pixel_geometry a,
     area L pixel_geometry = Ok a → float_eqb a (FNum 0) = false →
     extract_pixels L self pixel_geometry s
     = area_extract_area L (band_dataset self) pixel_geometry [band_index self])
  ∧ (∀ v, extract_pixels L self (Geom (Point v)) s
          = (arr ← get_array self NdNone; s arr (Geom (Point v))))
  ∧ (∀ vs, extract_pixels L self (Geom (LineString vs)) s
           = (arr ← get_array self NdNone; s arr (Geom (LineString vs)))).
Proof.
  split; [|split].
  - intros pg a Harea Ha. unfold extract_pixels. rewrite Harea.
    cbn [mbind result_bind]. rewrite Ha. reflexivity.
  - intros v. reflexivity.
  - intros vs. reflexivity.
Qed.

Lemma extract_pixels_by_area_witness :
  extract_pixels projected_libs (sample_band north_up float_band)
    (Geom unit_square) (λ _ _, Raise RuntimeError)
  = Ok (Matrix []).
Proof.
  rewrite (proj1 (extract_pixels_by_area projected_libs
                    (sample_band north_up float_band) (λ _ _, Raise RuntimeError))
             (Geom unit_square) (fz 1)).
  - reflexivity.
  - reflexivity.
  - reflexivity.
Defined.

(** X18: on a raster without rotation terms and with both scales different
    from zero, for a geometry whose map coordinates are brought to pixels
    without rounding, when the pixel form of the geometry has no area and
    [strategies.nearest] answers with that pixel form, [extract] returns the
    geometry it was given, whatever strategy it is called with. *)
Theorem extract_returns_geometry (L : Libs) (self : Band) a0 a1 a3 a5 geom arr
    (s : strategy) :
  geomatrix self = Ok (north_up_transform a0 a1 a3 a5) →
  a1 ≠ 0 → a5 ≠ 0 → exact64 a3 →
  Forall (unmaps_exactly a0 a1 a3 a5) (vertices geom) →
  area L (Geom (map_vertices (pixel_vertex (north_up_transform a0 a1 a3 a5))
                  geom)) = Ok (FNum 0) →
  get_array self NdNone = Ok arr →
  strategies_nearest L arr
    (Geom (map_vertices (pixel_vertex (north_up_transform a0 a1 a3 a5)) geom))
  = Ok (Geom (map_vertices (pixel_vertex (north_up_transform a0 a1 a3 a5))
                geom)) →
  extract L self (Geom geom) s = Ok (Geom geom).
Proof.
  intros Hg H1 H5 H3 Hexact Harea Harr Hnearest. unfold extract.
  rewrite (pixel_coordinates_pointwise self _ geom Hg)
    by (apply float_eqb_nonzero; assumption).
  cbn [mbind result_bind]. unfold extract_pixels.
  rewrite Harea. cbn [mbind result_bind].
  change (float_eqb (FNum 0) (FNum 0)) with true. cbn iota.
  rewrite Harr. cbn [mbind result_bind].
  rewrite Hnearest. cbn [mbind result_bind].
  rewrite (map_coordinates_pointwise self _ _ Hg).
  rewrite map_vertices_compose, map_vertices_fix; [reflexivity|].
  eapply Forall_impl; [exact Hexact|].
  intros v Hv. apply map_of_pixel_exact; assumption.
Qed.

Lemma extract_returns_geometry_witness :
  extract projected_libs (sample_band north_up float_band)
    (Geom (LineString [(fz 102, fz 48, None); (fz 104, fz 46, Some (fz 1))]))
    (λ _ _, Raise RuntimeError)
  = Ok (Geom (LineString [(fz 102, fz 48, None);
                          (fz 104, fz 46, Some (fz 1))])).
Proof.
  apply (extract_returns_geometry projected_libs
           (sample_band north_up float_band)
           (Z2Qc 100) (Z2Qc 2) (Z2Qc 50) (Z2Qc (-2)) _
           (PlainArray (FloatArray Float64 [[FNaN; fz 1; FNaN];
                                            [FInf false; FNaN; fz 7]]))).
  - reflexivity.
  - vm_compute. discriminate.
  - vm_compute. discriminate.
  - exact64_compute.
  - maps_exactly_compute.
  - reflexivity.
  - reflexivity.
  - reflexivity.
Defined.

(** ** Dataset.profile *)

Lemma floordiv_1_large w : (2 ≤ w)%Z → py_floordiv 1 w = Ok 0%Z.
Proof.
  intros Hw. unfold py_floordiv. destruct (decide (w = 0%Z)); [lia|].
  rewrite Z.div_1_l by lia. reflexivity.
Qed.

Lemma floordiv_1_negative w : (w < 0)%Z → py_floordiv 1 w = Ok (-1)%Z.
Proof.
  intros Hw. unfold py_floordiv. destruct (decide (w = 0%Z)); [lia|].
  f_equal. symmetry. apply (Z.div_unique_neg 1 w (-1) (1 + w)); lia.
Qed.

Lemma float_of_int_small :
  float_of_int 0 = fz 0 ∧ float_of_int 1 = fz 1 ∧ float_of_int (-1) = fz (-1).
Proof. repeat split; Qc_compute. Qed.

Lemma float_sub_minus_one x : float_sub x (fz (-1)) = float_add x (fz 1).
Proof.
  unfold float_sub, fz. cbn [float_opp].
  replace (- Z2Qc (-1)) with (Z2Qc 1); [reflexivity|].
  apply Qc_is_canon. reflexivity.
Qed.

(** A float minus zero is the float. *)
Lemma float_sub_zero x : is_float64 x → float_sub x (fz 0) = x.
Proof.
  destruct x as [q|s|]; cbn; [|reflexivity|reflexivity].
  intros Hq. replace (q + - Z2Qc 0) with q; [exact Hq|].
  rewrite <- Qc_zero_is_Z2Qc. ring.
Qed.

Lemma profile_offset_1 x : profile_offset x 1 = py_int (float_sub x (fz 1)).
Proof.
  unfold profile_offset. change (py_floordiv 1 1) with (Ok 1%Z).
  cbn [mbind result_bind].
  rewrite (proj1 (proj2 float_of_int_small)). reflexivity.
Qed.

(** X19: the offset that [profile] reads at is [int(x - 1//window)], not
    [int((x - 1)//window)]: it is [int(x - 1)] for a window of 1, [int(x)] for
    every larger window and [int(x + 1)] for a negative one; with a window of
    0 [profile] raises [ZeroDivisionError] on an open raster, before it
    reads. *)
Theorem profile_offset_by_window (x : pyfloat) :
  profile_offset x 0 = Raise ZeroDivisionError
  ∧ profile_offset x 1 = py_int (float_sub x (fz 1))
  ∧ (is_float64 x →
     ∀ window, (2 ≤ window)%Z → profile_offset x window = py_int x)
  ∧ (∀ window, (window < 0)%Z →
       profile_offset x window = py_int (float_add x (fz 1)))
  ∧ (∀ T (R : Raster T) self h y bands,
       gdal_handle self = Ok h →
       profile R self x y bands 0 = Raise ZeroDivisionError).
Proof.
  split; [reflexivity|]. split; [apply profile_offset_1|]. split.
  { intros Hx w Hw. unfold profile_offset. rewrite (floordiv_1_large w Hw).
    cbn [mbind result_bind]. rewrite (proj1 float_of_int_small).
    rewrite (float_sub_zero x Hx). reflexivity. }
  split.
  { intros w Hw. unfold profile_offset. rewrite (floordiv_1_negative w Hw).
    cbn [mbind result_bind]. rewrite (proj2 (proj2 float_of_int_small)).
    rewrite float_sub_minus_one. reflexivity. }
  intros T R self h y bands Hh. unfold profile, dataset_len. rewrite Hh.
  destruct bands; reflexivity.
Qed.

Lemma profile_offset_by_window_witness :
  profile_offset (fz 10) 3 = Ok 10%Z
  ∧ profile_offset (fz 10) 1 = Ok 9%Z
  ∧ profile (sample_raster 1 [fz 1]) (sample_dataset north_up float_band)
      (fz 10) (fz 10) None 0 = Raise ZeroDivisionError.
Proof.
  destruct (profile_offset_by_window (fz 10))
    as (_ & Hone & Hlarge & _ & Hzero).
  split; [|split].
  - rewrite (Hlarge ltac:(exact64_compute) 3%Z); [|lia]. reflexivity.
  - rewrite Hone. reflexivity.
  - apply (Hzero unit _ _ (sample_gdal north_up float_band (Ok "PROJCS"))).
    reflexivity.
Defined.

(** At a float above [2^53] the subtraction of 1 is rounded: to the float
    itself at [2^53 + 4], to 2 less at [2^53 + 2]. *)
Example profile_offset_large :
  profile_offset (fz (2 ^ 53 + 4)) 1 = Ok (2 ^ 53 + 4)%Z
  ∧ profile_offset (fz (2 ^ 53 + 2)) 1 = Ok (2 ^ 53)%Z.
Proof. split; vm_compute; reflexivity. Qed.







(** ** Dataset.nodata and Dataset.dtype *)

(** X22: the [nodata] and the [dtype] of a dataset are those of the first
    band of the raster (index 1 for GDAL), whatever the other bands
    declare. *)
Theorem dataset_nodata_first_band {T} (R : Raster T) (ds : object) h shape gdal :
  ds !! "__gdal__" = Some (PyGdal h) →
  ds !! "shape" = Some shape →
  GetRasterBand h 1 = Ok (Some gdal) →
  dataset_nodata ds = Ok (GetNoDataValue gdal)
  ∧ dataset_dtype R ds = Ok (GetDataTypeName R gdal).
Proof.
  intros Hgdal Hshape Hband. unfold dataset_nodata, dataset_dtype, get_band.
  rewrite (Band_init_returns ds 0 h shape gdal Hgdal Hshape Hband).
  split; reflexivity.
Qed.

Lemma dataset_nodata_first_band_witness :
  dataset_nodata (sample_dataset north_up nan_band) = Ok NdNanStr
  ∧ dataset_dtype (sample_raster 1 []) (sample_dataset north_up nan_band)
    = Ok "Float32"%string.
Proof.
  apply (dataset_nodata_first_band (sample_raster 1 [])
           (sample_dataset north_up nan_band)
           (sample_gdal north_up nan_band (Ok "PROJCS")) (PyShape (2, 3)%Z)
           nan_band); reflexivity.
Defined.
